(** * Performance timeline -> trace span projector

    A shallow embedding of [packages/tracing/src/browser/metrics.ts]
    (class [MetricsInstrumentation] and its helper functions) together with
    the properties stated about it.

    JavaScript numbers are IEEE 754 binary64 values and are modelled by
    Rocq's primitive floats, so that rounding, [NaN] and the truthiness of
    [0] behave as they do in the program.  JavaScript objects used as
    dictionaries are [gmap]s keyed by strings; arrays are lists. *)

From Stdlib Require Import Floats ZArith String List Bool Lia.
From stdpp Require Import gmap strings list.

Set Warnings "-inexact-float".
Local Open Scope string_scope.

(** ** JavaScript numbers *)

Module JS.

(** [ToBoolean] on a number: [+0], [-0] and [NaN] are falsy. *)
Definition truthy (x : float) : bool :=
  negb (PrimFloat.eqb x 0%float) && PrimFloat.eqb x x.

(** [ToBoolean] on a value of type [number | undefined]. *)
Definition truthyOpt (x : option float) : bool :=
  match x with
  | Some v => truthy v
  | None => false
  end.

(** [ToNumber]: [undefined] becomes [NaN]. *)
Definition toNumber (x : option float) : float :=
  match x with
  | Some v => v
  | None => PrimFloat.nan
  end.

(** [ToBoolean] on a string: only the empty string is falsy. *)
Definition truthyStr (s : string) : bool :=
  negb (String.eqb s "").

(** [x === s] for [x : string | undefined] and a string [s]. *)
Definition strictEq (x : option string) (s : string) : bool :=
  match x with
  | Some t => String.eqb t s
  | None => false
  end.

(** [s.indexOf(pat) > -1] *)
Definition includes (s pat : string) : bool :=
  match String.index 0 pat s with
  | Some _ => true
  | None => false
  end.

(** [s.replace(pat, '')] with a string pattern: only the first occurrence
    of [pat] is removed. *)
Definition removeFirst (s pat : string) : string :=
  match String.index 0 pat s with
  | Some i =>
      String.substring 0 i s
      ++ String.substring (i + String.length pat)
           (String.length s - (i + String.length pat)) s
  | None => s
  end.

(** [Array.prototype.pop]: the last element (if any) and the array that
    remains. *)
Definition pop {A} (l : list A) : option A * list A :=
  (last l, removelast l).

End JS.

(** Modelled from the spec: [msToSec] of [../utils], which is not part of
    the sources at hand; it converts platform milliseconds to seconds. *)
Definition msToSec (time : float) : float := (time / 1000)%float.

(** ** Data model *)

(** A performance timeline entry ([Record<string, any>] in the source).
    The fields every entry has are record fields; the remaining numeric own
    properties, which the source reads by (computed) key, are in [e_fields];
    a key that is absent reads as [undefined]. *)
Record PerformanceEntry := {
  e_entryType : string;
  e_name : string;
  e_startTime : float;
  e_duration : float;
  e_initiatorType : option string;
  e_fields : gmap string float;
}.

(** [SpanContext] of [@sentry/types], restricted to the fields this file
    sets. *)
Record SpanContext := {
  description : string;
  op : string;
  startTimestamp : option float;
  endTimestamp : option float;
  data : option (gmap string float);
}.

(** A span keeps the fields it was created with. *)
Abbreviation Span := SpanContext.

Record BrowserContext := {
  effectiveConnectionType : option string;
  deviceMemory : option float;
  hardwareConcurrency : option float;
}.

(** [Measurements]: name -> [{ value: number }]. *)
Abbreviation Measurements := (gmap string float).

Record Transaction := {
  tx_op : string;
  tx_startTimestamp : float;
  tx_spans : list Span;
  tx_contexts : gmap string BrowserContext;
  tx_measurements : Measurements;
}.

(** ** The platform *)

Record Script := {
  dataset_entry : option string;
  src : string;
}.

Record Connection := {
  effectiveType : option string;
  rtt : option float;
  downlink : option float;
}.

Record Navigator := {
  connection : option Connection;
  nav_deviceMemory : option float;
  nav_hardwareConcurrency : option float;
}.

Record Performance := {
  mark : bool;
  getEntries : option (list PerformanceEntry);
  timeOrigin : float;
}.

Record Window := {
  performance : option Performance;
  document_scripts : option (list Script);
  location_origin : string;
  navigator : option Navigator;
}.

(** What the module reads from its environment: the global object and
    [browserPerformanceTimeOrigin] of [@sentry/utils]. *)
Record Env := {
  global : option Window;
  browserPerformanceTimeOrigin : option float;
}.

(** ** Transaction interface *)

(** Modelled from the spec: [Transaction.startChild] of [../transaction],
    which creates a child span with the given fields under the
    transaction. *)
Definition startChild (transaction : Transaction) (ctx : SpanContext)
  : Transaction * Span :=
  ({| tx_op := tx_op transaction;
      tx_startTimestamp := tx_startTimestamp transaction;
      tx_spans := tx_spans transaction ++ [ctx];
      tx_contexts := tx_contexts transaction;
      tx_measurements := tx_measurements transaction |}, ctx).

(** Modelled from the spec: [Transaction.setContexts], which records the
    given named contexts on the transaction. *)
Definition setContexts (transaction : Transaction)
    (contexts : gmap string BrowserContext) : Transaction :=
  {| tx_op := tx_op transaction;
     tx_startTimestamp := tx_startTimestamp transaction;
     tx_spans := tx_spans transaction;
     tx_contexts := contexts ∪ tx_contexts transaction;
     tx_measurements := tx_measurements transaction |}.

(** Modelled from the spec: [Transaction.setMeasurements], which attaches
    the given measurement set to the transaction. *)
Definition setMeasurements (transaction : Transaction)
    (measurements : Measurements) : Transaction :=
  {| tx_op := tx_op transaction;
     tx_startTimestamp := tx_startTimestamp transaction;
     tx_spans := tx_spans transaction;
     tx_contexts := tx_contexts transaction;
     tx_measurements := measurements |}.

Definition setStartTimestamp (transaction : Transaction) (t : float)
  : Transaction :=
  {| tx_op := tx_op transaction;
     tx_startTimestamp := t;
     tx_spans := tx_spans transaction;
     tx_contexts := tx_contexts transaction;
     tx_measurements := tx_measurements transaction |}.

(** ** Span helpers *)

(** [_startChild]: the transaction takes the start timestamp of the child if
    that one is truthy and earlier than its own. *)
Definition _startChild (transaction : Transaction) (ctx : SpanContext)
  : Transaction * Span :=
  let transaction :=
    match startTimestamp ctx with
    | Some t =>
        if JS.truthy t && PrimFloat.ltb t (tx_startTimestamp transaction)
        then setStartTimestamp transaction t
        else transaction
    | None => transaction
    end in
  startChild transaction ctx.

(** [addPerformanceNavigationTiming] *)
Definition addPerformanceNavigationTiming (transaction : Transaction)
    (entry : PerformanceEntry) (event : string) (timeOrigin : float)
  : Transaction :=
  let end_ := e_fields entry !! (event ++ "End") in
  let start := e_fields entry !! (event ++ "Start") in
  if negb (JS.truthyOpt start) || negb (JS.truthyOpt end_) then transaction
  else
    fst (_startChild transaction
           {| description := event;
              endTimestamp := Some (timeOrigin + msToSec (JS.toNumber end_))%float;
              op := "browser";
              startTimestamp := Some (timeOrigin + msToSec (JS.toNumber start))%float;
              data := None |}).

(** [addRequest] *)
Definition addRequest (transaction : Transaction) (entry : PerformanceEntry)
    (timeOrigin : float) : Transaction :=
  let field k := JS.toNumber (e_fields entry !! k) in
  let transaction :=
    fst (_startChild transaction
           {| description := "request";
              endTimestamp := Some (timeOrigin + msToSec (field "responseEnd"))%float;
              op := "browser";
              startTimestamp := Some (timeOrigin + msToSec (field "requestStart"))%float;
              data := None |}) in
  fst (_startChild transaction
         {| description := "response";
            endTimestamp := Some (timeOrigin + msToSec (field "responseEnd"))%float;
            op := "browser";
            startTimestamp := Some (timeOrigin + msToSec (field "responseStart"))%float;
            data := None |}).

(** [addNavigationSpans] *)
Definition addNavigationSpans (transaction : Transaction)
    (entry : PerformanceEntry) (timeOrigin : float) : Transaction :=
  let transaction := addPerformanceNavigationTiming transaction entry "unloadEvent" timeOrigin in
  let transaction := addPerformanceNavigationTiming transaction entry "domContentLoadedEvent" timeOrigin in
  let transaction := addPerformanceNavigationTiming transaction entry "loadEvent" timeOrigin in
  let transaction := addPerformanceNavigationTiming transaction entry "connect" timeOrigin in
  let transaction := addPerformanceNavigationTiming transaction entry "domainLookup" timeOrigin in
  addRequest transaction entry timeOrigin.

(** [addMeasureSpans] *)
Definition addMeasureSpans (transaction : Transaction)
    (entry : PerformanceEntry) (startTime duration timeOrigin : float)
  : Transaction * float :=
  let measureStartTimestamp := (timeOrigin + startTime)%float in
  let measureEndTimestamp := (measureStartTimestamp + duration)%float in
  (fst (_startChild transaction
          {| description := e_name entry;
             endTimestamp := Some measureEndTimestamp;
             op := e_entryType entry;
             startTimestamp := Some measureStartTimestamp;
             data := None |}),
   measureStartTimestamp).

(** [data[label] = entry[key]] when [key in entry]. *)
Definition copyField (entry : PerformanceEntry) (key label : string)
    (data : gmap string float) : gmap string float :=
  match e_fields entry !! key with
  | Some v => <[label := v]> data
  | None => data
  end.

(** [addResourceSpans] *)
Definition addResourceSpans (transaction : Transaction)
    (entry : PerformanceEntry) (resourceName : string)
    (startTime duration timeOrigin : float)
  : Transaction * option float :=
  let initiatorType := e_initiatorType entry in
  if JS.strictEq initiatorType "xmlhttprequest" || JS.strictEq initiatorType "fetch"
  then (transaction, None)
  else
      let data := (∅ : gmap string float) in
      let data := copyField entry "transferSize" "Transfer Size" data in
      let data := copyField entry "encodedBodySize" "Encoded Body Size" data in
      let data := copyField entry "decodedBodySize" "Decoded Body Size" data in
      let startTimestamp_ := (timeOrigin + startTime)%float in
      let endTimestamp_ := (startTimestamp_ + duration)%float in
      (fst (_startChild transaction
              {| description := resourceName;
                 endTimestamp := Some endTimestamp_;
                 op := match initiatorType with
                       | Some t => if JS.truthyStr t then "resource." ++ t else "resource"
                       | None => "resource"
                       end;
                 startTimestamp := Some startTimestamp_;
                 data := Some data |}),
       Some endTimestamp_).

(** ** The instrumentation object *)

Record MetricsInstrumentation := {
  _measurements : Measurements;
  _browserContext : BrowserContext;
  _performanceCursor : nat;
}.

(** Field initialisers of the class. *)
Definition initial : MetricsInstrumentation :=
  {| _measurements := ∅;
     _browserContext :=
       {| effectiveConnectionType := None;
          deviceMemory := None;
          hardwareConcurrency := None |};
     _performanceCursor := 0 |}.

Definition setMeasurement (this : MetricsInstrumentation) (key : string)
    (value : float) : MetricsInstrumentation :=
  {| _measurements := <[key := value]> (_measurements this);
     _browserContext := _browserContext this;
     _performanceCursor := _performanceCursor this |}.

Definition setBrowserContext (this : MetricsInstrumentation)
    (ctx : BrowserContext) : MetricsInstrumentation :=
  {| _measurements := _measurements this;
     _browserContext := ctx;
     _performanceCursor := _performanceCursor this |}.

(** [_trackNavigator]; [navigator] is [window.navigator]. *)
Definition _trackNavigator (navigator : option Navigator)
    (this : MetricsInstrumentation) : MetricsInstrumentation :=
  let this :=
    match navigator ≫= connection with
    | Some connection =>
        let this :=
          match effectiveType connection with
          | Some t =>
              if JS.truthyStr t
              then setBrowserContext this
                     {| effectiveConnectionType := Some t;
                        deviceMemory := deviceMemory (_browserContext this);
                        hardwareConcurrency := hardwareConcurrency (_browserContext this) |}
              else this
          | None => this
          end in
        let this :=
          match rtt connection with
          | Some v => setMeasurement this "connection.rtt" v
          | None => this
          end in
        match downlink connection with
        | Some v => setMeasurement this "connection.downlink" v
        | None => this
        end
    | None => this
    end in
  let this :=
    match navigator ≫= nav_deviceMemory with
    | Some v =>
        setBrowserContext this
          {| effectiveConnectionType := effectiveConnectionType (_browserContext this);
             deviceMemory := Some v;
             hardwareConcurrency := hardwareConcurrency (_browserContext this) |}
    | None => this
    end in
  match navigator ≫= nav_hardwareConcurrency with
  | Some v =>
      setBrowserContext this
        {| effectiveConnectionType := effectiveConnectionType (_browserContext this);
           deviceMemory := deviceMemory (_browserContext this);
           hardwareConcurrency := Some v |}
  | None => this
  end.

(** The constructor.  Marking the timeline and subscribing to the two web
    vitals act on the platform; what remains on the object is the first
    context snapshot. *)
Definition new (env : Env) : MetricsInstrumentation :=
  match global env with
  | Some window =>
      match performance window with
      | Some _ => _trackNavigator (navigator window) initial
      | None => initial
      end
  | None => initial
  end.

(** A web-vitals metric as handed to the [getLCP] / [getFID] callbacks. *)
Record Metric := {
  value : float;
  entries : list PerformanceEntry;
}.

(** The callback of [_trackLCP] and [_trackFID], for the measurement named
    [key] (["lcp"] or ["fid"]).  [metric.entries.pop()] also shortens the
    list held by the metric, which is returned alongside. *)
Definition trackVital (key : string) (performance : Performance)
    (metric : Metric) (this : MetricsInstrumentation)
  : MetricsInstrumentation * Metric :=
  let '(entry, rest) := JS.pop (entries metric) in
  let metric := {| value := value metric; entries := rest |} in
  match entry with
  | None => (this, metric)
  | Some entry =>
      let timeOrigin := msToSec (timeOrigin performance) in
      let startTime := msToSec (e_startTime entry) in
      let this := setMeasurement this key (value metric) in
      let this := setMeasurement this ("mark." ++ key) (timeOrigin + startTime)%float in
      (this, metric)
  end.

Definition _trackLCP := trackVital "lcp".
Definition _trackFID := trackVital "fid".

(** ** Projecting entries *)

(** The variables the [forEach] callback of [addPerformanceEntries] closes
    over and assigns. *)
Record Scan := {
  sc_transaction : Transaction;
  sc_this : MetricsInstrumentation;
  entryScriptStartTimestamp : option float;
  tracingInitMarkStartTime : option float;
}.

(** The first script of the document flagged [data-entry="true"]. *)
Definition findEntryScript (window : Window) : option string :=
  match document_scripts window with
  | Some scripts =>
      src <$> List.find (fun s => JS.strictEq (dataset_entry s) "true") scripts
  | None => None
  end.

(** The navigation filter at the head of the callback. *)
Definition skipped (timeOrigin : float) (transaction : Transaction)
    (entry : PerformanceEntry) : bool :=
  String.eqb (tx_op transaction) "navigation"
  && PrimFloat.ltb (timeOrigin + msToSec (e_startTime entry))%float
       (tx_startTimestamp transaction).

Definition isMeasure (entry : PerformanceEntry) : bool :=
  String.eqb (e_entryType entry) "mark"
  || String.eqb (e_entryType entry) "paint"
  || String.eqb (e_entryType entry) "measure".

(** The callback passed to [forEach]. *)
Definition forEachEntry (origin : string) (timeOrigin : float)
    (entryScriptSrc : option string) (st : Scan) (entry : PerformanceEntry)
  : Scan :=
  let transaction := sc_transaction st in
  let startTime := msToSec (e_startTime entry) in
  let duration := msToSec (e_duration entry) in
  if skipped timeOrigin transaction entry then st
  else if String.eqb (e_entryType entry) "navigation" then
    {| sc_transaction := addNavigationSpans transaction entry timeOrigin;
       sc_this := sc_this st;
       entryScriptStartTimestamp := entryScriptStartTimestamp st;
       tracingInitMarkStartTime := tracingInitMarkStartTime st |}
  else if isMeasure entry then
    let '(transaction, startTimestamp_) :=
      addMeasureSpans transaction entry startTime duration timeOrigin in
    let tracingInit :=
      match tracingInitMarkStartTime st with
      | None =>
          if String.eqb (e_name entry) "sentry-tracing-init"
          then Some startTimestamp_ else None
      | Some t => Some t
      end in
    let this := sc_this st in
    let this :=
      if String.eqb (e_name entry) "first-paint"
      then setMeasurement (setMeasurement this "fp" (e_startTime entry))
             "mark.fp" startTimestamp_
      else this in
    let this :=
      if String.eqb (e_name entry) "first-contentful-paint"
      then setMeasurement (setMeasurement this "fcp" (e_startTime entry))
             "mark.fcp" startTimestamp_
      else this in
    {| sc_transaction := transaction;
       sc_this := this;
       entryScriptStartTimestamp := entryScriptStartTimestamp st;
       tracingInitMarkStartTime := tracingInit |}
  else if String.eqb (e_entryType entry) "resource" then
    let resourceName := JS.removeFirst (e_name entry) origin in
    let '(transaction, endTimestamp_) :=
      addResourceSpans transaction entry resourceName startTime duration timeOrigin in
    let entryScript :=
      match entryScriptStartTimestamp st with
      | None =>
          if JS.includes (default "" entryScriptSrc) resourceName
          then endTimestamp_ else None
      | Some t => Some t
      end in
    {| sc_transaction := transaction;
       sc_this := sc_this st;
       entryScriptStartTimestamp := entryScript;
       tracingInitMarkStartTime := tracingInitMarkStartTime st |}
  else st.

(** The span closing the scan, from the end of the entry script to the
    tracing-init mark. *)
Definition addEvaluation (st : Scan) : Transaction :=
  match entryScriptStartTimestamp st, tracingInitMarkStartTime st with
  | Some scriptEnd, Some initMark =>
      fst (_startChild (sc_transaction st)
             {| description := "evaluation";
                endTimestamp := Some initMark;
                op := "script";
                startTimestamp := Some scriptEnd;
                data := None |})
  | _, _ => sc_transaction st
  end.

(** [Math.max(length - 1, 0)] *)
Definition nextCursor (timeline : list PerformanceEntry) : nat :=
  Z.to_nat (Z.max (Z.of_nat (length timeline) - 1) 0).

(** The gatekeeper: the window and the timeline the scan reads, when the
    platform has the performance timeline and a time origin. *)
Definition gatekeeper (env : Env)
  : option (Window * list PerformanceEntry * float) :=
  match global env with
  | Some window =>
      match performance window with
      | Some perf =>
          match getEntries perf, browserPerformanceTimeOrigin env with
          | Some timeline, Some origin =>
              if JS.truthy origin then Some (window, timeline, origin) else None
          | _, _ => None
          end
      | None => None
      end
  | None => None
  end.

(** The scan of the unread suffix of the timeline. *)
Definition scan (window : Window) (timeline : list PerformanceEntry)
    (timeOrigin : float) (this : MetricsInstrumentation)
    (transaction : Transaction) : Scan :=
  fold_left
    (forEachEntry (location_origin window) timeOrigin (findEntryScript window))
    (drop (_performanceCursor this) timeline)
    {| sc_transaction := transaction;
       sc_this := this;
       entryScriptStartTimestamp := None;
       tracingInitMarkStartTime := None |}.

(** [addPerformanceEntries] *)
Definition addPerformanceEntries (env : Env) (this : MetricsInstrumentation)
    (transaction : Transaction) : MetricsInstrumentation * Transaction :=
  match gatekeeper env with
  | None => (this, transaction)
  | Some (window, timeline, origin) =>
      let timeOrigin := msToSec origin in
      let st := scan window timeline timeOrigin this transaction in
      let transaction := addEvaluation st in
      let this :=
        {| _measurements := _measurements (sc_this st);
           _browserContext := _browserContext (sc_this st);
           _performanceCursor := nextCursor timeline |} in
      if String.eqb (tx_op transaction) "pageload" then
        let this := _trackNavigator (navigator window) this in
        let transaction :=
          setContexts transaction {[ "browser" := _browserContext this ]} in
        let transaction := setMeasurements transaction (_measurements this) in
        (this, transaction)
      else (this, transaction)
  end.

(** * Properties *)

(** ** Order facts on binary64 numbers *)

Module FloatOrder.

Local Open Scope float_scope.

(** A number is not [NaN] exactly when it equals itself. *)
Definition number (x : float) : Prop := (x =? x) = true.

Lemma SFcompare_refl_Eq x : SFcompare x x <> None -> SFcompare x x = Some Eq.
Proof.
  destruct x as [[]|[]| |[] m e]; simpl; try congruence;
    rewrite Z.compare_refl; change (Pos.compare_cont Eq m m) with (Pos.compare m m);
    rewrite Pos.compare_refl; reflexivity.
Qed.

Lemma SFcompare_antisym x y :
  SFcompare y x = option_map CompOpp (SFcompare x y).
Proof.
  destruct x as [[]|[]| |[] mx ex], y as [[]|[]| |[] my ey]; simpl; try reflexivity;
    rewrite (Z.compare_antisym ex ey);
    change (Pos.compare_cont Eq my mx) with (Pos.compare my mx);
    change (Pos.compare_cont Eq mx my) with (Pos.compare mx my);
    rewrite (Pos.compare_antisym mx my);
    destruct (ex ?= ey)%Z, (mx ?= my)%positive; reflexivity.
Qed.

Ltac cmp_cases :=
  repeat match goal with
    | |- context [ (?a ?= ?b)%Z ] =>
        destruct (Z.compare_spec a b); subst
    | H : context [ (?a ?= ?b)%Z ] |- _ =>
        destruct (Z.compare_spec a b); subst
    | |- context [ Pos.compare_cont Eq ?a ?b ] =>
        change (Pos.compare_cont Eq a b) with (Pos.compare a b);
        destruct (Pos.compare_spec a b); subst
    | H : context [ Pos.compare_cont Eq ?a ?b ] |- _ =>
        change (Pos.compare_cont Eq a b) with (Pos.compare a b) in H;
        destruct (Pos.compare_spec a b); subst
    end.

Lemma SFcompare_Lt_le_trans x y z :
  SFcompare x y = Some Lt ->
  (SFcompare y z = Some Lt \/ SFcompare y z = Some Eq) ->
  SFcompare x z = Some Lt.
Proof.
  destruct x as [[]|[]| |[] mx ex], y as [[]|[]| |[] my ey], z as [[]|[]| |[] mz ez];
    simpl; intros Hxy [Hyz|Hyz]; try congruence;
    cmp_cases; simpl in *; try congruence; try lia.
Qed.

Lemma number_compare x : number x -> SFcompare (Prim2SF x) (Prim2SF x) <> None.
Proof.
  unfold number. rewrite FloatAxioms.eqb_spec. unfold SFeqb.
  destruct (SFcompare _ _); congruence.
Qed.

Lemma compare_total x y :
  SFcompare x x <> None -> SFcompare y y <> None -> SFcompare x y <> None.
Proof.
  destruct x as [[]|[]| |[] mx ex], y as [[]|[]| |[] my ey]; simpl; congruence.
Qed.

(** [!(x < y)] on two numbers means [y <= x]. *)
Lemma not_ltb_leb x y :
  number x -> number y -> (x <? y) = false -> (y <=? x) = true.
Proof.
  intros Hx%number_compare Hy%number_compare.
  rewrite FloatAxioms.ltb_spec, FloatAxioms.leb_spec. unfold SFltb, SFleb.
  rewrite (SFcompare_antisym (Prim2SF x) (Prim2SF y)).
  pose proof (compare_total _ _ Hx Hy) as Ht.
  destruct (SFcompare (Prim2SF x) (Prim2SF y)) as [[]|]; simpl; congruence.
Qed.

Lemma ltb_leb_trans x y z :
  (x <? y) = true -> (y <=? z) = true -> (x <=? z) = true.
Proof.
  rewrite FloatAxioms.ltb_spec, !FloatAxioms.leb_spec. unfold SFltb, SFleb. intros Hxy Hyz.
  rewrite (SFcompare_Lt_le_trans (Prim2SF x) (Prim2SF y) (Prim2SF z)); [reflexivity| |].
  - destruct (SFcompare (Prim2SF x) (Prim2SF y)) as [[]|]; congruence.
  - destruct (SFcompare (Prim2SF y) (Prim2SF z)) as [[]|]; auto; congruence.
Qed.

Lemma leb_refl x : number x -> (x <=? x) = true.
Proof.
  intros Hx%number_compare. rewrite FloatAxioms.leb_spec. unfold SFleb.
  rewrite SFcompare_refl_Eq by assumption. reflexivity.
Qed.

Lemma truthy_number x : JS.truthy x = true -> number x.
Proof. unfold JS.truthy, number. intros [_ H]%andb_true_iff. exact H. Qed.

End FloatOrder.

Local Open Scope list_scope.

(** ** What a child span changes on a transaction *)

Section StartChild.

Variables (transaction : Transaction) (ctx : SpanContext).

Lemma _startChild_spans :
  tx_spans (fst (_startChild transaction ctx)) = tx_spans transaction ++ [ctx].
Proof.
  unfold _startChild. destruct (startTimestamp ctx) as [t|]; [|reflexivity].
  destruct (JS.truthy t && _); reflexivity.
Qed.

Lemma _startChild_op :
  tx_op (fst (_startChild transaction ctx)) = tx_op transaction.
Proof.
  unfold _startChild. destruct (startTimestamp ctx) as [t|]; [|reflexivity].
  destruct (JS.truthy t && _); reflexivity.
Qed.

Lemma _startChild_contexts :
  tx_contexts (fst (_startChild transaction ctx)) = tx_contexts transaction.
Proof.
  unfold _startChild. destruct (startTimestamp ctx) as [t|]; [|reflexivity].
  destruct (JS.truthy t && _); reflexivity.
Qed.

Lemma _startChild_measurements :
  tx_measurements (fst (_startChild transaction ctx)) = tx_measurements transaction.
Proof.
  unfold _startChild. destruct (startTimestamp ctx) as [t|]; [|reflexivity].
  destruct (JS.truthy t && _); reflexivity.
Qed.

End StartChild.

(** ** Navigation entries *)

(** The span [addPerformanceNavigationTiming] builds for [event]. *)
Definition timingSpan (entry : PerformanceEntry) (event : string)
    (timeOrigin : float) : Span :=
  {| description := event;
     endTimestamp :=
       Some (timeOrigin + msToSec (JS.toNumber (e_fields entry !! (event ++ "End")%string)))%float;
     op := "browser";
     startTimestamp :=
       Some (timeOrigin + msToSec (JS.toNumber (e_fields entry !! (event ++ "Start")%string)))%float;
     data := None |}.

(** The spans a navigation entry is expected to add for [event]: one when
    both sub-fields are truthy, none otherwise. *)
Definition timingSpans (entry : PerformanceEntry) (event : string)
    (timeOrigin : float) : list Span :=
  if JS.truthyOpt (e_fields entry !! (event ++ "Start")%string)
     && JS.truthyOpt (e_fields entry !! (event ++ "End")%string)
  then [timingSpan entry event timeOrigin]
  else [].

(** The two spans of [addRequest]. *)
Definition requestSpans (entry : PerformanceEntry) (timeOrigin : float)
  : list Span :=
  let field k := JS.toNumber (e_fields entry !! k) in
  [ {| description := "request";
       endTimestamp := Some (timeOrigin + msToSec (field "responseEnd"))%float;
       op := "browser";
       startTimestamp := Some (timeOrigin + msToSec (field "requestStart"))%float;
       data := None |};
    {| description := "response";
       endTimestamp := Some (timeOrigin + msToSec (field "responseEnd"))%float;
       op := "browser";
       startTimestamp := Some (timeOrigin + msToSec (field "responseStart"))%float;
       data := None |} ].

Lemma addPerformanceNavigationTiming_spans transaction entry event timeOrigin :
  tx_spans (addPerformanceNavigationTiming transaction entry event timeOrigin)
  = tx_spans transaction ++ timingSpans entry event timeOrigin.
Proof.
  unfold addPerformanceNavigationTiming, timingSpans.
  destruct (JS.truthyOpt (e_fields entry !! (event ++ "Start")%string));
    destruct (JS.truthyOpt (e_fields entry !! (event ++ "End")%string));
    cbn [negb orb andb]; rewrite ?app_nil_r; try reflexivity.
  apply _startChild_spans.
Qed.

Lemma addRequest_spans transaction entry timeOrigin :
  tx_spans (addRequest transaction entry timeOrigin)
  = tx_spans transaction ++ requestSpans entry timeOrigin.
Proof.
  unfold addRequest, requestSpans.
  rewrite !_startChild_spans, <- app_assoc. reflexivity.
Qed.

Lemma addNavigationSpans_spans transaction entry timeOrigin :
  tx_spans (addNavigationSpans transaction entry timeOrigin)
  = tx_spans transaction
    ++ timingSpans entry "unloadEvent" timeOrigin
    ++ timingSpans entry "domContentLoadedEvent" timeOrigin
    ++ timingSpans entry "loadEvent" timeOrigin
    ++ timingSpans entry "connect" timeOrigin
    ++ timingSpans entry "domainLookup" timeOrigin
    ++ requestSpans entry timeOrigin.
Proof.
  unfold addNavigationSpans.
  rewrite addRequest_spans, !addPerformanceNavigationTiming_spans, <- !app_assoc.
  reflexivity.
Qed.

(** A navigation entry that carries none of the sub-fields. *)
Definition bareNavigation : PerformanceEntry :=
  {| e_entryType := "navigation";
     e_name := "https://example.com/";
     e_startTime := 0;
     e_duration := 0;
     e_initiatorType := None;
     e_fields := ∅ |}.

Definition emptyTransaction (op : string) (start : float) : Transaction :=
  {| tx_op := op;
     tx_startTimestamp := start;
     tx_spans := [];
     tx_contexts := ∅;
     tx_measurements := ∅ |}.

(** C4, as stated, fails: a navigation entry without [requestStart],
    [responseStart] and [responseEnd] still gets its "request" and
    "response" spans, with [NaN] timestamps; only the five event spans are
    skipped. *)
Lemma navigation_request_not_skipped :
  map description
    (tx_spans (addNavigationSpans (emptyTransaction "pageload" 1000) bareNavigation 1000))
  = ["request"; "response"]
  /\ e_fields bareNavigation !! "requestStart" = None
  /\ e_fields bareNavigation !! "responseStart" = None
  /\ e_fields bareNavigation !! "responseEnd" = None.
Proof. vm_compute. repeat split. Qed.

(** C4 (amended): for a navigation entry, each of the unload,
    DOM-content-loaded, load, connect and domain-lookup spans is emitted
    exactly when both its start and its end sub-field are present and
    truthy, and otherwise that span is skipped and the transaction is left
    as it was; the "request" and "response" spans are not guarded: they are
    emitted for every navigation entry, after the event spans. *)
Theorem navigation_spans_guarded transaction entry timeOrigin :
  tx_spans (addNavigationSpans transaction entry timeOrigin)
  = tx_spans transaction
    ++ timingSpans entry "unloadEvent" timeOrigin
    ++ timingSpans entry "domContentLoadedEvent" timeOrigin
    ++ timingSpans entry "loadEvent" timeOrigin
    ++ timingSpans entry "connect" timeOrigin
    ++ timingSpans entry "domainLookup" timeOrigin
    ++ requestSpans entry timeOrigin
  /\ (forall event,
        timingSpans entry event timeOrigin
        = if JS.truthyOpt (e_fields entry !! (event ++ "Start")%string)
             && JS.truthyOpt (e_fields entry !! (event ++ "End")%string)
          then [timingSpan entry event timeOrigin] else [])
  /\ (forall event,
        addPerformanceNavigationTiming transaction entry event timeOrigin
        = if JS.truthyOpt (e_fields entry !! (event ++ "Start")%string)
             && JS.truthyOpt (e_fields entry !! (event ++ "End")%string)
          then fst (_startChild transaction (timingSpan entry event timeOrigin))
          else transaction)
  /\ length (requestSpans entry timeOrigin) = 2.
Proof.
  split; [apply addNavigationSpans_spans|].
  split; [reflexivity|].
  split; [|reflexivity].
  intros event. unfold addPerformanceNavigationTiming.
  destruct (JS.truthyOpt (e_fields entry !! (event ++ "Start")%string));
    destruct (JS.truthyOpt (e_fields entry !! (event ++ "End")%string)); reflexivity.
Qed.

(** C8: with a time origin of 1000 s, a navigation entry whose
    [domContentLoadedEventStart] is 100 ms and whose
    [domContentLoadedEventEnd] is 150 ms yields the span described
    "domContentLoadedEvent", tagged "browser", from 1000.1 s to 1000.15 s. *)
Theorem domContentLoaded_example transaction entry :
  e_fields entry !! "domContentLoadedEventStart" = Some 100%float ->
  e_fields entry !! "domContentLoadedEventEnd" = Some 150%float ->
  let span :=
    {| description := "domContentLoadedEvent";
       endTimestamp := Some 1000.15%float;
       op := "browser";
       startTimestamp := Some 1000.1%float;
       data := None |} in
  tx_spans (addPerformanceNavigationTiming transaction entry "domContentLoadedEvent" 1000)
  = tx_spans transaction ++ [span]
  /\ In span (tx_spans (addNavigationSpans transaction entry 1000)).
Proof.
  intros Hs He span.
  assert (Ht : timingSpans entry "domContentLoadedEvent" 1000 = [span]).
  { unfold timingSpans, timingSpan. cbv [String.append]. rewrite Hs, He. reflexivity. }
  split.
  - rewrite addPerformanceNavigationTiming_spans, Ht. reflexivity.
  - rewrite addNavigationSpans_spans, Ht. rewrite !in_app_iff. simpl. tauto.
Qed.

Definition domContentLoadedEntry : PerformanceEntry :=
  {| e_entryType := "navigation";
     e_name := "https://example.com/";
     e_startTime := 0;
     e_duration := 200;
     e_initiatorType := None;
     e_fields := {[ "domContentLoadedEventStart" := 100%float;
                    "domContentLoadedEventEnd" := 150%float ]} |}.

Lemma domContentLoaded_example_witness :
  tx_spans (addPerformanceNavigationTiming (emptyTransaction "pageload" 1000)
              domContentLoadedEntry "domContentLoadedEvent" 1000)
  = [ {| description := "domContentLoadedEvent";
         endTimestamp := Some 1000.15%float;
         op := "browser";
         startTimestamp := Some 1000.1%float;
         data := None |} ].
Proof.
  apply (domContentLoaded_example (emptyTransaction "pageload" 1000) domContentLoadedEntry);
    vm_compute; reflexivity.
Defined.

(** ** Resource entries *)

Lemma addResourceSpans_skip transaction entry resourceName startTime duration timeOrigin :
  e_initiatorType entry = Some "xmlhttprequest"
  \/ e_initiatorType entry = Some "fetch" ->
  addResourceSpans transaction entry resourceName startTime duration timeOrigin
  = (transaction, None).
Proof.
  unfold addResourceSpans. intros [-> | ->]; reflexivity.
Qed.

(** C7: a resource entry whose initiator type is "xmlhttprequest" or "fetch"
    makes [addResourceSpans] return no end timestamp and leave the
    transaction untouched, and dispatching such an entry changes nothing at
    all: no span, no measurement, no remembered timestamp. *)
Theorem resource_deduplicated origin timeOrigin entryScriptSrc st entry :
  e_entryType entry = "resource" ->
  e_initiatorType entry = Some "xmlhttprequest"
  \/ e_initiatorType entry = Some "fetch" ->
  (forall transaction resourceName startTime duration,
     addResourceSpans transaction entry resourceName startTime duration timeOrigin
     = (transaction, None))
  /\ forEachEntry origin timeOrigin entryScriptSrc st entry = st.
Proof.
  intros Htype Hinit. split.
  - intros. apply addResourceSpans_skip, Hinit.
  - unfold forEachEntry. destruct (skipped _ _ _); [reflexivity|].
    unfold isMeasure. rewrite Htype. cbn [String.eqb Ascii.eqb Bool.eqb orb].
    rewrite addResourceSpans_skip by assumption.
    destruct st as [tx this [s|] init]; cbn; [reflexivity|].
    destruct (JS.includes _ _); reflexivity.
Qed.

Definition fetchEntry : PerformanceEntry :=
  {| e_entryType := "resource";
     e_name := "https://example.com/api/items";
     e_startTime := 120;
     e_duration := 35;
     e_initiatorType := Some "fetch";
     e_fields := {[ "transferSize" := 512%float ]} |}.

Lemma resource_deduplicated_witness :
  forEachEntry "https://example.com" 1000 None
    {| sc_transaction := emptyTransaction "pageload" 1000;
       sc_this := initial;
       entryScriptStartTimestamp := None;
       tracingInitMarkStartTime := None |}
    fetchEntry
  = {| sc_transaction := emptyTransaction "pageload" 1000;
       sc_this := initial;
       entryScriptStartTimestamp := None;
       tracingInitMarkStartTime := None |}.
Proof.
  apply (resource_deduplicated "https://example.com" 1000 None _ fetchEntry).
  - reflexivity.
  - right. reflexivity.
Defined.

(** ** The gatekeeper *)

(** C5: when the global object, its performance object, the [getEntries]
    function or a (truthy) time origin is missing, [addPerformanceEntries]
    returns at once: the instrumentation (cursor, measurements, context) and
    the transaction (spans, start, measurements, contexts) are exactly what
    they were. *)
Theorem gatekeeper_no_effect env this transaction :
  global env = None
  \/ global env ≫= performance = None
  \/ (global env ≫= performance) ≫= getEntries = None
  \/ JS.truthyOpt (browserPerformanceTimeOrigin env) = false ->
  addPerformanceEntries env this transaction = (this, transaction).
Proof.
  intros H. unfold addPerformanceEntries.
  assert (Hg : gatekeeper env = None); [|rewrite Hg; reflexivity].
  unfold gatekeeper.
  destruct (global env) as [window|]; [|reflexivity]. cbn in H.
  destruct (performance window) as [perf|]; [|reflexivity]. cbn in H.
  destruct (getEntries perf) as [timeline|]; [|reflexivity]. cbn in H.
  destruct (browserPerformanceTimeOrigin env) as [origin|]; [|reflexivity].
  cbn in H. destruct H as [H|[H|[H|H]]]; try discriminate.
  rewrite H. reflexivity.
Qed.

(** A platform with a performance object that has no timeline. *)
Definition noTimeline : Env :=
  {| global :=
       Some {| performance :=
                 Some {| mark := true; getEntries := None; timeOrigin := 1000000 |};
               document_scripts := None;
               location_origin := "https://example.com";
               navigator := None |};
     browserPerformanceTimeOrigin := Some 1000000%float |}.

Lemma gatekeeper_no_effect_witness :
  addPerformanceEntries noTimeline initial (emptyTransaction "pageload" 1000)
  = (initial, emptyTransaction "pageload" 1000).
Proof.
  apply (gatekeeper_no_effect noTimeline initial (emptyTransaction "pageload" 1000)).
  right. right. left. reflexivity.
Defined.

(** ** Web vitals *)

Lemma pop_nil {A} : JS.pop (@nil A) = (None, []).
Proof. reflexivity. Qed.

Lemma pop_snoc {A} (l : list A) (x : A) : JS.pop (l ++ [x]) = (Some x, l).
Proof. unfold JS.pop. rewrite last_snoc, removelast_last. reflexivity. Qed.

(** C6: a firing of the LCP or FID callback with no contributing entry
    leaves the instrumentation as it is; otherwise only the last entry is
    read and two measurements are written: the metric value under "lcp"
    ("fid") and, under "mark.lcp" ("mark.fid"), the time origin plus the
    start time of that entry, both taken to seconds. *)
Theorem vital_measurements perf metric this :
  (entries metric = [] ->
   fst (_trackLCP perf metric this) = this
   /\ fst (_trackFID perf metric this) = this)
  /\ (forall earlier entry,
        entries metric = earlier ++ [entry] ->
        let mark := (msToSec (timeOrigin perf) + msToSec (e_startTime entry))%float in
        fst (_trackLCP perf metric this)
        = {| _measurements :=
               <["mark.lcp" := mark]> (<["lcp" := value metric]> (_measurements this));
             _browserContext := _browserContext this;
             _performanceCursor := _performanceCursor this |}
        /\ fst (_trackFID perf metric this)
           = {| _measurements :=
                  <["mark.fid" := mark]> (<["fid" := value metric]> (_measurements this));
                _browserContext := _browserContext this;
                _performanceCursor := _performanceCursor this |}).
Proof.
  unfold _trackLCP, _trackFID, trackVital. split.
  - intros ->. rewrite pop_nil. split; reflexivity.
  - intros earlier entry ->. rewrite pop_snoc. split; reflexivity.
Qed.

Definition paintEntry (name : string) (startTime : float) : PerformanceEntry :=
  {| e_entryType := "paint";
     e_name := name;
     e_startTime := startTime;
     e_duration := 0;
     e_initiatorType := None;
     e_fields := ∅ |}.

Definition somePerformance : Performance :=
  {| mark := true; getEntries := Some []; timeOrigin := 1000000 |}.

Lemma vital_measurements_witness :
  _measurements
    (fst (_trackLCP somePerformance
            {| value := 2500;
               entries := [paintEntry "a" 1200; paintEntry "b" 2500] |}
            initial))
  = <["mark.lcp" := 1002.5%float]> (<["lcp" := 2500%float]> ∅)
  /\ fst (_trackFID somePerformance {| value := 16; entries := [] |} initial) = initial.
Proof.
  split.
  - pose proof (vital_measurements somePerformance
                  {| value := 2500;
                     entries := [paintEntry "a" 1200; paintEntry "b" 2500] |}
                  initial) as [_ H].
    destruct (H [paintEntry "a" 1200] (paintEntry "b" 2500) eq_refl) as [-> _].
    reflexivity.
  - apply (vital_measurements somePerformance {| value := 16; entries := [] |} initial).
    reflexivity.
Defined.

(** ** Boundary containment *)

(** The transaction starts no later than every child whose start timestamp
    is a truthy number (neither [undefined], [0] nor [NaN]). *)
Definition contains (transaction : Transaction) : Prop :=
  FloatOrder.number (tx_startTimestamp transaction)
  /\ Forall
       (fun span : Span =>
          forall t, startTimestamp span = Some t -> JS.truthy t = true ->
                    PrimFloat.leb (tx_startTimestamp transaction) t = true)
       (tx_spans transaction).

Lemma _startChild_contains transaction ctx :
  contains transaction -> contains (fst (_startChild transaction ctx)).
Proof.
  unfold contains, _startChild. intros [Hnum Hall].
  destruct (startTimestamp ctx) as [t|] eqn:Hctx.
  - destruct (JS.truthy t) eqn:Htruthy; cbn [andb].
    + destruct (PrimFloat.ltb t (tx_startTimestamp transaction)) eqn:Hlt; cbn.
      * split; [apply FloatOrder.truthy_number, Htruthy|].
        apply Forall_app. split.
        -- eapply Forall_impl; [exact Hall|]. cbn. intros span Hspan u Hu Htu.
           eapply FloatOrder.ltb_leb_trans; [exact Hlt|]. eauto.
        -- constructor; [|constructor]. intros u Hu _.
           rewrite Hctx in Hu. injection Hu as <-.
           apply FloatOrder.leb_refl, FloatOrder.truthy_number, Htruthy.
      * split; [exact Hnum|]. apply Forall_app. split; [exact Hall|].
        constructor; [|constructor]. intros u Hu _.
        rewrite Hctx in Hu. injection Hu as <-.
        apply FloatOrder.not_ltb_leb; auto using FloatOrder.truthy_number.
    + cbn. split; [exact Hnum|]. apply Forall_app. split; [exact Hall|].
      constructor; [|constructor]. intros u Hu Htu.
      rewrite Hctx in Hu. injection Hu as <-. congruence.
  - cbn. split; [exact Hnum|]. apply Forall_app. split; [exact Hall|].
    constructor; [|constructor]. intros u Hu. rewrite Hctx in Hu. discriminate.
Qed.

Lemma _startChild_pulled_back transaction ctx t :
  startTimestamp ctx = Some t ->
  JS.truthy t = true ->
  PrimFloat.ltb t (tx_startTimestamp transaction) = true ->
  tx_startTimestamp (fst (_startChild transaction ctx)) = t.
Proof.
  unfold _startChild. intros -> -> ->. reflexivity.
Qed.

Lemma addPerformanceNavigationTiming_contains transaction entry event timeOrigin :
  contains transaction ->
  contains (addPerformanceNavigationTiming transaction entry event timeOrigin).
Proof.
  unfold addPerformanceNavigationTiming. intros H.
  destruct (negb _ || negb _); [exact H|]. apply _startChild_contains, H.
Qed.

Lemma addRequest_contains transaction entry timeOrigin :
  contains transaction -> contains (addRequest transaction entry timeOrigin).
Proof.
  unfold addRequest. intros H. do 2 apply _startChild_contains. exact H.
Qed.

Lemma addNavigationSpans_contains transaction entry timeOrigin :
  contains transaction -> contains (addNavigationSpans transaction entry timeOrigin).
Proof.
  unfold addNavigationSpans. intros H.
  apply addRequest_contains.
  do 5 apply addPerformanceNavigationTiming_contains. exact H.
Qed.

Lemma addMeasureSpans_contains transaction entry startTime duration timeOrigin :
  contains transaction ->
  contains (fst (addMeasureSpans transaction entry startTime duration timeOrigin)).
Proof. unfold addMeasureSpans. intros H. apply _startChild_contains, H. Qed.

Lemma addResourceSpans_contains transaction entry resourceName startTime duration timeOrigin :
  contains transaction ->
  contains (fst (addResourceSpans transaction entry resourceName startTime duration timeOrigin)).
Proof.
  unfold addResourceSpans. intros H.
  destruct (_ || _); [exact H|]. apply _startChild_contains, H.
Qed.

Lemma forEachEntry_contains origin timeOrigin entryScriptSrc st entry :
  contains (sc_transaction st) ->
  contains (sc_transaction (forEachEntry origin timeOrigin entryScriptSrc st entry)).
Proof.
  unfold forEachEntry. intros H.
  destruct (skipped _ _ _); [exact H|].
  destruct (String.eqb (e_entryType entry) "navigation").
  { apply addNavigationSpans_contains, H. }
  destruct (isMeasure entry).
  { pose proof (addMeasureSpans_contains (sc_transaction st) entry
                  (msToSec (e_startTime entry)) (msToSec (e_duration entry)) timeOrigin H) as H'.
    destruct (addMeasureSpans _ _ _ _ _). exact H'. }
  destruct (String.eqb (e_entryType entry) "resource"); [|exact H].
  pose proof (addResourceSpans_contains (sc_transaction st) entry
                (JS.removeFirst (e_name entry) origin)
                (msToSec (e_startTime entry)) (msToSec (e_duration entry)) timeOrigin H) as H'.
  destruct (addResourceSpans _ _ _ _ _ _). exact H'.
Qed.

Lemma dispatch_contains origin timeOrigin entryScriptSrc timeline :
  forall st,
    contains (sc_transaction st) ->
    contains (sc_transaction
                (fold_left (forEachEntry origin timeOrigin entryScriptSrc) timeline st)).
Proof.
  induction timeline as [|entry timeline IH]; intros st H; [exact H|].
  cbn. apply IH, forEachEntry_contains, H.
Qed.

Lemma addEvaluation_contains st :
  contains (sc_transaction st) -> contains (addEvaluation st).
Proof.
  unfold addEvaluation. intros H.
  destruct (entryScriptStartTimestamp st), (tracingInitMarkStartTime st);
    try exact H. apply _startChild_contains, H.
Qed.

Lemma addPerformanceEntries_contains env this transaction :
  contains transaction ->
  contains (snd (addPerformanceEntries env this transaction)).
Proof.
  unfold addPerformanceEntries. intros H.
  destruct (gatekeeper env) as [[[window timeline] origin]|]; [|exact H].
  assert (contains (addEvaluation (scan window timeline (msToSec origin) this transaction))) as H'.
  { apply addEvaluation_contains. unfold scan. apply dispatch_contains. exact H. }
  destruct (String.eqb _ "pageload"); exact H'.
Qed.

(** C2, as stated, fails: a child starting at [0] is earlier than a
    transaction starting at 5 s, yet [_startChild] leaves the start of the
    transaction at 5 s, above the start of the child it now owns. *)
Lemma start_zero_not_pulled_back :
  let transaction := emptyTransaction "pageload" 5 in
  let child :=
    {| description := "early"; op := "mark";
       startTimestamp := Some 0%float; endTimestamp := Some 1%float;
       data := None |} in
  let result := fst (_startChild transaction child) in
  PrimFloat.ltb 0 (tx_startTimestamp transaction) = true
  /\ tx_startTimestamp result = 5%float
  /\ tx_spans result = [child]
  /\ PrimFloat.leb (tx_startTimestamp result) 0 = false.
Proof. vm_compute. repeat split. Qed.

(** C2 (amended): starting from a transaction that contains its children,
    after any sequence of dispatched timeline entries (and after a whole
    [addPerformanceEntries]) the start of the transaction is a number less
    than or equal to the start of every child whose start timestamp is
    truthy, that is neither [0] nor [NaN]; whenever [_startChild] is given a
    truthy start timestamp earlier than the current start of the
    transaction, the start of the transaction becomes that timestamp; and a
    falsy start timestamp ([undefined], [0], [NaN]), like one that is not
    earlier, never moves the start of the transaction. *)
Theorem boundary_containment transaction :
  contains transaction ->
  (forall origin timeOrigin entryScriptSrc timeline this script init,
     contains
       (sc_transaction
          (fold_left (forEachEntry origin timeOrigin entryScriptSrc) timeline
             {| sc_transaction := transaction; sc_this := this;
                entryScriptStartTimestamp := script;
                tracingInitMarkStartTime := init |})))
  /\ (forall env this, contains (snd (addPerformanceEntries env this transaction)))
  /\ (forall ctx, contains (fst (_startChild transaction ctx)))
  /\ (forall ctx t,
        startTimestamp ctx = Some t ->
        JS.truthy t = true ->
        PrimFloat.ltb t (tx_startTimestamp transaction) = true ->
        tx_startTimestamp (fst (_startChild transaction ctx)) = t)
  /\ (forall ctx,
        JS.truthyOpt (startTimestamp ctx) = false ->
        tx_startTimestamp (fst (_startChild transaction ctx))
        = tx_startTimestamp transaction)
  /\ (forall ctx t,
        startTimestamp ctx = Some t ->
        PrimFloat.ltb t (tx_startTimestamp transaction) = false ->
        tx_startTimestamp (fst (_startChild transaction ctx))
        = tx_startTimestamp transaction).
Proof.
  intros H.
  split; [intros; apply dispatch_contains, H|].
  split; [intros; apply addPerformanceEntries_contains, H|].
  split; [intros; apply _startChild_contains, H|].
  split; [intros ctx t; apply _startChild_pulled_back|].
  split.
  - intros ctx Hfalsy. unfold _startChild.
    destruct (startTimestamp ctx) as [t|]; [|reflexivity].
    cbn [JS.truthyOpt] in Hfalsy. rewrite Hfalsy. reflexivity.
  - intros ctx t Hctx Hlt. unfold _startChild. rewrite Hctx, Hlt.
    rewrite andb_false_r. reflexivity.
Qed.

Lemma boundary_containment_witness :
  let transaction := emptyTransaction "pageload" 1000 in
  let child :=
    {| description := "first-paint"; op := "paint";
       startTimestamp := Some 999.5%float; endTimestamp := Some 999.5%float;
       data := None |} in
  let unset :=
    {| description := "request"; op := "browser";
       startTimestamp := Some PrimFloat.nan; endTimestamp := Some PrimFloat.nan;
       data := None |} in
  contains transaction
  /\ tx_startTimestamp (fst (_startChild transaction child)) = 999.5%float
  /\ contains (fst (_startChild transaction child))
  /\ tx_startTimestamp (fst (_startChild transaction unset)) = 1000%float.
Proof.
  intros transaction child unset.
  assert (H : contains transaction) by (split; [reflexivity | constructor]).
  split; [exact H|].
  destruct (boundary_containment transaction H) as (_ & _ & Hchild & Hpull & Hfalsy & _).
  split; [|split; [apply Hchild|]].
  - apply (Hpull child 999.5%float); reflexivity.
  - apply (Hfalsy unset). reflexivity.
Defined.

(** ** What the scan leaves alone on the transaction *)

(** The operation kind, the contexts and the measurements of [t2] are those
    of [t1]. *)
Definition frame (t1 t2 : Transaction) : Prop :=
  tx_op t2 = tx_op t1
  /\ tx_contexts t2 = tx_contexts t1
  /\ tx_measurements t2 = tx_measurements t1.

Lemma frame_refl t : frame t t.
Proof. repeat split. Qed.

Lemma frame_trans t1 t2 t3 : frame t1 t2 -> frame t2 t3 -> frame t1 t3.
Proof. unfold frame. intros (-> & -> & ->) (-> & -> & ->). repeat split. Qed.

Lemma _startChild_frame transaction ctx :
  frame transaction (fst (_startChild transaction ctx)).
Proof.
  repeat split;
    auto using _startChild_op, _startChild_contexts, _startChild_measurements.
Qed.

Lemma addPerformanceNavigationTiming_frame transaction entry event timeOrigin :
  frame transaction (addPerformanceNavigationTiming transaction entry event timeOrigin).
Proof.
  unfold addPerformanceNavigationTiming.
  destruct (negb _ || negb _); auto using frame_refl, _startChild_frame.
Qed.

Lemma addRequest_frame transaction entry timeOrigin :
  frame transaction (addRequest transaction entry timeOrigin).
Proof.
  unfold addRequest.
  eapply frame_trans; [|apply _startChild_frame]. apply _startChild_frame.
Qed.

Lemma addNavigationSpans_frame transaction entry timeOrigin :
  frame transaction (addNavigationSpans transaction entry timeOrigin).
Proof.
  unfold addNavigationSpans.
  eapply frame_trans; [|apply addRequest_frame].
  do 4 (eapply frame_trans; [|apply addPerformanceNavigationTiming_frame]).
  apply addPerformanceNavigationTiming_frame.
Qed.

Lemma addMeasureSpans_frame transaction entry startTime duration timeOrigin :
  frame transaction
    (fst (addMeasureSpans transaction entry startTime duration timeOrigin)).
Proof. apply _startChild_frame. Qed.

Lemma addResourceSpans_frame transaction entry resourceName startTime duration timeOrigin :
  frame transaction
    (fst (addResourceSpans transaction entry resourceName startTime duration timeOrigin)).
Proof.
  unfold addResourceSpans.
  destruct (_ || _); cbn [fst]; [apply frame_refl | apply _startChild_frame].
Qed.

Lemma forEachEntry_frame origin timeOrigin entryScriptSrc st entry :
  frame (sc_transaction st)
    (sc_transaction (forEachEntry origin timeOrigin entryScriptSrc st entry)).
Proof.
  unfold forEachEntry.
  destruct (skipped _ _ _); [apply frame_refl|].
  destruct (String.eqb (e_entryType entry) "navigation").
  { apply addNavigationSpans_frame. }
  destruct (isMeasure entry).
  { pose proof (addMeasureSpans_frame (sc_transaction st) entry
                  (msToSec (e_startTime entry)) (msToSec (e_duration entry)) timeOrigin) as H.
    destruct (addMeasureSpans _ _ _ _ _). exact H. }
  destruct (String.eqb (e_entryType entry) "resource"); [|apply frame_refl].
  pose proof (addResourceSpans_frame (sc_transaction st) entry
                (JS.removeFirst (e_name entry) origin)
                (msToSec (e_startTime entry)) (msToSec (e_duration entry)) timeOrigin) as H.
  destruct (addResourceSpans _ _ _ _ _ _). exact H.
Qed.

Lemma dispatch_frame origin timeOrigin entryScriptSrc timeline :
  forall st,
    frame (sc_transaction st)
      (sc_transaction (fold_left (forEachEntry origin timeOrigin entryScriptSrc) timeline st)).
Proof.
  induction timeline as [|entry timeline IH]; intros st; [apply frame_refl|].
  cbn. eapply frame_trans; [apply forEachEntry_frame | apply IH].
Qed.

Lemma addEvaluation_frame st : frame (sc_transaction st) (addEvaluation st).
Proof.
  unfold addEvaluation.
  destruct (entryScriptStartTimestamp st), (tracingInitMarkStartTime st);
    auto using frame_refl, _startChild_frame.
Qed.

Lemma scanned_frame window timeline timeOrigin this transaction :
  frame transaction (addEvaluation (scan window timeline timeOrigin this transaction)).
Proof.
  eapply frame_trans; [|apply addEvaluation_frame].
  unfold scan. apply (dispatch_frame _ _ _ _ {| sc_transaction := transaction |}).
Qed.

(** ** Attaching measurements and contexts *)

(** The instrumentation after the LCP callback fired once. *)
Definition afterLCP : MetricsInstrumentation :=
  fst (_trackLCP somePerformance
         {| value := 2500; entries := [paintEntry "largest" 2500] |} initial).

(** C9, as stated, fails: for a "pageload" transaction on a platform that
    does not pass the gatekeeper, neither the accumulated measurements nor
    the browser context are attached. *)
Lemma pageload_not_attached_behind_gatekeeper :
  let transaction := emptyTransaction "pageload" 1000 in
  let result := addPerformanceEntries noTimeline afterLCP transaction in
  tx_op transaction = "pageload"
  /\ _measurements (fst result) !! "lcp" = Some 2500%float
  /\ tx_measurements (snd result) = ∅
  /\ tx_contexts (snd result) !! "browser" = None.
Proof. vm_compute. repeat split. Qed.

(** C9 (amended): when the platform passes the gatekeeper,
    [addPerformanceEntries] attaches the accumulated measurement set and the
    browser context record to the transaction if and only if its operation
    kind is "pageload"; for every other operation kind, and whenever the
    gatekeeper stops the call, the measurements and contexts of the
    transaction are left unchanged. *)
Theorem attached_only_on_pageload env this transaction :
  let result := addPerformanceEntries env this transaction in
  tx_op (snd result) = tx_op transaction
  /\ (is_Some (gatekeeper env) ->
      tx_op transaction = "pageload" ->
      tx_measurements (snd result) = _measurements (fst result)
      /\ tx_contexts (snd result)
         = <["browser" := _browserContext (fst result)]> (tx_contexts transaction))
  /\ (gatekeeper env = None \/ tx_op transaction <> "pageload" ->
      tx_measurements (snd result) = tx_measurements transaction
      /\ tx_contexts (snd result) = tx_contexts transaction).
Proof.
  unfold addPerformanceEntries.
  destruct (gatekeeper env) as [[[window timeline] origin]|]; cbn zeta.
  - destruct (scanned_frame window timeline (msToSec origin) this transaction)
      as (Hop & Hctx & Hm).
    set (tx1 := addEvaluation (scan window timeline (msToSec origin) this transaction)) in *.
    destruct (String.eqb_spec (tx_op tx1) "pageload") as [Heq|Hne]; cbn [fst snd].
    + split; [exact Hop|]. split.
      * intros _ _. cbn. rewrite Hctx. split; [reflexivity|].
        symmetry. apply insert_union_singleton_l.
      * intros [[=]|Hne]. rewrite Hop in Heq. contradiction.
    + split; [exact Hop|]. split.
      * intros _ Hpage. rewrite Hop in Hne. contradiction.
      * intros _. split; assumption.
  - cbn [fst snd]. split; [reflexivity|]. split.
    + intros [? [=]].
    + intros _. split; reflexivity.
Qed.

(** A page served from [https://example.com] whose entry script is
    [/app.js], with the given performance timeline. *)
Definition page (timeline : list PerformanceEntry) : Env :=
  {| global :=
       Some {| performance :=
                 Some {| mark := true;
                         getEntries := Some timeline;
                         timeOrigin := 1000000 |};
               document_scripts :=
                 Some [ {| dataset_entry := None;
                           src := "https://cdn.example.net/lib.js" |};
                        {| dataset_entry := Some "true";
                           src := "https://example.com/app.js" |} ];
               location_origin := "https://example.com";
               navigator :=
                 Some {| connection :=
                           Some {| effectiveType := Some "4g";
                                   rtt := Some 50%float;
                                   downlink := Some 10%float |};
                         nav_deviceMemory := Some 8%float;
                         nav_hardwareConcurrency := None |} |};
     browserPerformanceTimeOrigin := Some 1000000%float |}.

Lemma attached_only_on_pageload_witness :
  let result :=
    addPerformanceEntries (page [paintEntry "first-paint" 234]) afterLCP
      (emptyTransaction "pageload" 1000) in
  tx_measurements (snd result) = _measurements (fst result)
  /\ tx_measurements (snd result) !! "fp" = Some 234%float
  /\ tx_measurements (snd result) !! "lcp" = Some 2500%float
  /\ tx_contexts (snd result) !! "browser"
     = Some {| effectiveConnectionType := Some "4g";
               deviceMemory := Some 8%float;
               hardwareConcurrency := None |}.
Proof.
  intros result.
  destruct (attached_only_on_pageload (page [paintEntry "first-paint" 234]) afterLCP
              (emptyTransaction "pageload" 1000)) as (_ & Hyes & _).
  destruct Hyes as [Hm Hc]; [eexists; reflexivity | reflexivity |].
  fold result in Hm, Hc.
  split; [exact Hm|]. rewrite Hm, Hc. vm_compute. repeat split.
Defined.

(** ** The evaluation span *)

Lemma isMeasure_not_navigation entry :
  isMeasure entry = true -> String.eqb (e_entryType entry) "navigation" = false.
Proof.
  unfold isMeasure.
  destruct (String.eqb_spec (e_entryType entry) "mark") as [->|_]; [reflexivity|].
  destruct (String.eqb_spec (e_entryType entry) "paint") as [->|_]; [reflexivity|].
  destruct (String.eqb_spec (e_entryType entry) "measure") as [->|_]; [reflexivity|].
  discriminate.
Qed.

Lemma resource_not_measure entry :
  String.eqb (e_entryType entry) "resource" = true ->
  String.eqb (e_entryType entry) "navigation" = false /\ isMeasure entry = false.
Proof.
  unfold isMeasure. intros ->%String.eqb_eq. split; reflexivity.
Qed.

(** The entry goes through the mark / paint / measure case and carries the
    name of the mark set by the constructor. *)
Definition isTracingInit (entry : PerformanceEntry) : bool :=
  isMeasure entry && String.eqb (e_name entry) "sentry-tracing-init".

(** The entry is a resource whose name, relative to the origin, occurs in
    the path of the entry script. *)
Definition isEntryScript (origin : string) (entryScriptSrc : option string)
    (entry : PerformanceEntry) : bool :=
  String.eqb (e_entryType entry) "resource"
  && JS.includes (default "" entryScriptSrc) (JS.removeFirst (e_name entry) origin).

(** The resource was already captured by the request instrumentation. *)
Definition deduplicated (entry : PerformanceEntry) : bool :=
  JS.strictEq (e_initiatorType entry) "xmlhttprequest"
  || JS.strictEq (e_initiatorType entry) "fetch".

Definition startOf (timeOrigin : float) (entry : PerformanceEntry) : float :=
  (timeOrigin + msToSec (e_startTime entry))%float.

Definition endOf (timeOrigin : float) (entry : PerformanceEntry) : float :=
  (timeOrigin + msToSec (e_startTime entry) + msToSec (e_duration entry))%float.

Definition evaluationSpan (scriptEnd initMark : float) : Span :=
  {| description := "evaluation";
     endTimestamp := Some initMark;
     op := "script";
     startTimestamp := Some scriptEnd;
     data := None |}.

Section Dispatch.

Variables (origin : string) (timeOrigin : float) (entryScriptSrc : option string).

Let dispatch := forEachEntry origin timeOrigin entryScriptSrc.

Lemma forEachEntry_tracingInit st entry :
  tracingInitMarkStartTime (dispatch st entry)
  = match tracingInitMarkStartTime st with
    | Some t => Some t
    | None =>
        if negb (skipped timeOrigin (sc_transaction st) entry) && isTracingInit entry
        then Some (startOf timeOrigin entry) else None
    end.
Proof.
  unfold dispatch, forEachEntry, isTracingInit.
  destruct (skipped _ _ _); cbn [negb andb].
  { destruct (tracingInitMarkStartTime st); reflexivity. }
  destruct (isMeasure entry) eqn:Hm; cbn [andb].
  - rewrite isMeasure_not_navigation by assumption.
    unfold addMeasureSpans, startOf.
    destruct (tracingInitMarkStartTime st); reflexivity.
  - destruct (String.eqb (e_entryType entry) "navigation").
    { cbn. destruct (tracingInitMarkStartTime st); reflexivity. }
    destruct (String.eqb (e_entryType entry) "resource").
    + destruct (addResourceSpans _ _ _ _ _ _).
      cbn. destruct (tracingInitMarkStartTime st); reflexivity.
    + destruct (tracingInitMarkStartTime st); reflexivity.
Qed.

Lemma forEachEntry_entryScript st entry :
  entryScriptStartTimestamp (dispatch st entry)
  = match entryScriptStartTimestamp st with
    | Some t => Some t
    | None =>
        if negb (skipped timeOrigin (sc_transaction st) entry)
           && isEntryScript origin entryScriptSrc entry
           && negb (deduplicated entry)
        then Some (endOf timeOrigin entry) else None
    end.
Proof.
  unfold dispatch, forEachEntry, isEntryScript, deduplicated.
  destruct (skipped _ _ _); cbn [negb andb].
  { destruct (entryScriptStartTimestamp st); reflexivity. }
  destruct (String.eqb (e_entryType entry) "resource") eqn:Hr; cbn [andb].
  - destruct (resource_not_measure entry Hr) as [-> ->].
    unfold addResourceSpans, endOf.
    destruct (_ || _); cbn [negb andb];
      destruct (entryScriptStartTimestamp st); try reflexivity;
      rewrite ?andb_false_r, ?andb_true_r;
      destruct (JS.includes _ _); reflexivity.
  - destruct (String.eqb (e_entryType entry) "navigation").
    { cbn. destruct (entryScriptStartTimestamp st); reflexivity. }
    destruct (isMeasure entry).
    + destruct (addMeasureSpans _ _ _ _ _).
      cbn. destruct (entryScriptStartTimestamp st); reflexivity.
    + destruct (entryScriptStartTimestamp st); reflexivity.
Qed.

Lemma dispatch_tracingInit_kept timeline :
  forall st t,
    tracingInitMarkStartTime st = Some t ->
    tracingInitMarkStartTime (fold_left dispatch timeline st) = Some t.
Proof.
  induction timeline as [|entry timeline IH]; intros st t H; [exact H|].
  cbn. apply IH. rewrite forEachEntry_tracingInit, H. reflexivity.
Qed.

Lemma dispatch_entryScript_kept timeline :
  forall st t,
    entryScriptStartTimestamp st = Some t ->
    entryScriptStartTimestamp (fold_left dispatch timeline st) = Some t.
Proof.
  induction timeline as [|entry timeline IH]; intros st t H; [exact H|].
  cbn. apply IH. rewrite forEachEntry_entryScript, H. reflexivity.
Qed.

Lemma not_navigation_not_skipped transaction entry :
  tx_op transaction <> "navigation" ->
  skipped timeOrigin transaction entry = false.
Proof.
  unfold skipped. intros H.
  destruct (String.eqb_spec (tx_op transaction) "navigation"); [contradiction|reflexivity].
Qed.

Lemma dispatch_tracingInit_first timeline :
  forall st,
    tx_op (sc_transaction st) <> "navigation" ->
    tracingInitMarkStartTime st = None ->
    tracingInitMarkStartTime (fold_left dispatch timeline st)
    = startOf timeOrigin <$> List.find isTracingInit timeline.
Proof.
  induction timeline as [|entry timeline IH]; intros st Hop H; [exact H|].
  cbn [fold_left List.find].
  pose proof (forEachEntry_tracingInit st entry) as Hstep.
  rewrite H, not_navigation_not_skipped in Hstep by assumption.
  cbn [negb andb] in Hstep.
  destruct (isTracingInit entry).
  - apply dispatch_tracingInit_kept, Hstep.
  - apply IH; [|exact Hstep]. unfold dispatch.
    destruct (forEachEntry_frame origin timeOrigin entryScriptSrc st entry) as [-> _].
    exact Hop.
Qed.

Lemma dispatch_entryScript_first timeline :
  forall st,
    tx_op (sc_transaction st) <> "navigation" ->
    entryScriptStartTimestamp st = None ->
    entryScriptStartTimestamp (fold_left dispatch timeline st)
    = endOf timeOrigin
        <$> List.find
              (fun entry => isEntryScript origin entryScriptSrc entry
                            && negb (deduplicated entry))
              timeline.
Proof.
  induction timeline as [|entry timeline IH]; intros st Hop H; [exact H|].
  cbn [fold_left List.find].
  pose proof (forEachEntry_entryScript st entry) as Hstep.
  rewrite H, not_navigation_not_skipped in Hstep by assumption.
  cbn [negb andb] in Hstep.
  destruct (isEntryScript origin entryScriptSrc entry && negb (deduplicated entry)).
  - apply dispatch_entryScript_kept, Hstep.
  - apply IH; [|exact Hstep]. unfold dispatch.
    destruct (forEachEntry_frame origin timeOrigin entryScriptSrc st entry) as [-> _].
    exact Hop.
Qed.

End Dispatch.

Lemma addEvaluation_spans st :
  tx_spans (addEvaluation st)
  = tx_spans (sc_transaction st)
    ++ match entryScriptStartTimestamp st, tracingInitMarkStartTime st with
       | Some scriptEnd, Some initMark => [evaluationSpan scriptEnd initMark]
       | _, _ => []
       end.
Proof.
  unfold addEvaluation.
  destruct (entryScriptStartTimestamp st), (tracingInitMarkStartTime st);
    rewrite ?app_nil_r; try reflexivity.
  apply _startChild_spans.
Qed.

Definition resourceEntry (name initiator : string) (startTime duration : float)
  : PerformanceEntry :=
  {| e_entryType := "resource";
     e_name := name;
     e_startTime := startTime;
     e_duration := duration;
     e_initiatorType := Some initiator;
     e_fields := ∅ |}.

Definition markEntry (name : string) (startTime : float) : PerformanceEntry :=
  {| e_entryType := "mark";
     e_name := name;
     e_startTime := startTime;
     e_duration := 0;
     e_initiatorType := None;
     e_fields := ∅ |}.

(** The entry script is first seen as a [fetch] resource, then as the
    script itself; the tracing-init mark follows. *)
Definition prefetchedTimeline : list PerformanceEntry :=
  [ resourceEntry "https://example.com/app.js" "fetch" 10 20;
    resourceEntry "https://example.com/app.js" "script" 50 30;
    markEntry "sentry-tracing-init" 200 ].

(** C10, as stated, fails: the first resource entry matching the entry
    script is the [fetch] one, ending at 1000.03 s, but it yields no end
    timestamp, so the second matching entry sets it and the evaluation span
    starts at the end of that second entry.  Likewise, for a "navigation"
    transaction started at 1000.5 s the first scanned tracing-init mark, at
    1000.2 s, is filtered out and the second one sets the reference
    timestamp. *)
Lemma first_matching_script_not_used :
  let result :=
    snd (addPerformanceEntries (page prefetchedTimeline) initial
           (emptyTransaction "pageload" 1000)) in
  let marks := [markEntry "sentry-tracing-init" 200; markEntry "sentry-tracing-init" 900] in
  tracingInitMarkStartTime
    (fold_left (forEachEntry "https://example.com" 1000 None) marks
       {| sc_transaction := emptyTransaction "navigation" 1000.5;
          sc_this := initial;
          entryScriptStartTimestamp := None;
          tracingInitMarkStartTime := None |})
  = Some (startOf 1000 (markEntry "sentry-tracing-init" 900))
  /\
  List.find (isEntryScript "https://example.com" (Some "https://example.com/app.js"))
    prefetchedTimeline
  = Some (resourceEntry "https://example.com/app.js" "fetch" 10 20)
  /\ last (tx_spans result)
     = Some (evaluationSpan
               (endOf 1000 (resourceEntry "https://example.com/app.js" "script" 50 30))
               (startOf 1000 (markEntry "sentry-tracing-init" 200)))
  /\ PrimFloat.eqb
       (endOf 1000 (resourceEntry "https://example.com/app.js" "script" 50 30))
       (endOf 1000 (resourceEntry "https://example.com/app.js" "fetch" 10 20))
     = false.
Proof. vm_compute. repeat split. Qed.

(** C10 (amended): within one scan, the first dispatched mark, paint or
    measure entry named "sentry-tracing-init" fixes the tracing-init
    timestamp (its absolute start), and the first dispatched resource entry
    whose origin-relative name occurs in the entry-script path and whose
    initiator type is neither "xmlhttprequest" nor "fetch" fixes the
    entry-script end timestamp (its absolute end); no later entry of the
    scan overwrites either value, and the "evaluation" span, emitted exactly
    when both are set, runs from that script end to that mark start.  For a
    transaction whose operation kind is not "navigation" every entry is
    dispatched, so both values are given by the first such entry of the
    scanned slice. *)
Theorem first_match_wins origin timeOrigin entryScriptSrc before entry later st :
  let dispatch := forEachEntry origin timeOrigin entryScriptSrc in
  let reached := fold_left dispatch before st in
  let final := fold_left dispatch (before ++ entry :: later) st in
  skipped timeOrigin (sc_transaction reached) entry = false ->
  (tracingInitMarkStartTime reached = None ->
   isTracingInit entry = true ->
   tracingInitMarkStartTime final = Some (startOf timeOrigin entry))
  /\ (entryScriptStartTimestamp reached = None ->
      isEntryScript origin entryScriptSrc entry = true ->
      deduplicated entry = false ->
      entryScriptStartTimestamp final = Some (endOf timeOrigin entry))
  /\ (forall t, tracingInitMarkStartTime reached = Some t ->
                tracingInitMarkStartTime final = Some t)
  /\ (forall t, entryScriptStartTimestamp reached = Some t ->
                entryScriptStartTimestamp final = Some t)
  /\ tx_spans (addEvaluation final)
     = tx_spans (sc_transaction final)
       ++ match entryScriptStartTimestamp final, tracingInitMarkStartTime final with
          | Some scriptEnd, Some initMark => [evaluationSpan scriptEnd initMark]
          | _, _ => []
          end
  /\ (tx_op (sc_transaction st) <> "navigation" ->
      tracingInitMarkStartTime st = None ->
      entryScriptStartTimestamp st = None ->
      tracingInitMarkStartTime final
      = startOf timeOrigin <$> List.find isTracingInit (before ++ entry :: later)
      /\ entryScriptStartTimestamp final
         = endOf timeOrigin
             <$> List.find
                   (fun entry => isEntryScript origin entryScriptSrc entry
                                 && negb (deduplicated entry))
                   (before ++ entry :: later)).
Proof.
  intros dispatch reached final Hskip. subst final.
  rewrite fold_left_app. fold dispatch. fold reached. cbn [fold_left].
  repeat apply conj.
  - intros Hnone Hinit. apply dispatch_tracingInit_kept.
    unfold dispatch. rewrite forEachEntry_tracingInit, Hnone, Hskip, Hinit. reflexivity.
  - intros Hnone Hscript Hdedup. apply dispatch_entryScript_kept.
    unfold dispatch.
    rewrite forEachEntry_entryScript, Hnone, Hskip, Hscript, Hdedup. reflexivity.
  - intros t Ht. apply dispatch_tracingInit_kept.
    unfold dispatch. rewrite forEachEntry_tracingInit, Ht. reflexivity.
  - intros t Ht. apply dispatch_entryScript_kept.
    unfold dispatch. rewrite forEachEntry_entryScript, Ht. reflexivity.
  - apply addEvaluation_spans.
  - intros Hop Hi Hs.
    change (fold_left dispatch later (dispatch reached entry))
      with (fold_left dispatch (entry :: later) reached).
    unfold reached. rewrite <- fold_left_app. unfold dispatch. split.
    + apply dispatch_tracingInit_first; assumption.
    + apply dispatch_entryScript_first; assumption.
Qed.

(** The entry script loads, the mark is set, and a second mark of the same
    name is recorded later. *)
Lemma first_match_wins_witness :
  let st :=
    {| sc_transaction := emptyTransaction "pageload" 1000;
       sc_this := initial;
       entryScriptStartTimestamp := None;
       tracingInitMarkStartTime := None |} in
  let timeline :=
    [ resourceEntry "https://example.com/app.js" "script" 50 30;
      markEntry "sentry-tracing-init" 200;
      markEntry "sentry-tracing-init" 900 ] in
  tracingInitMarkStartTime
    (fold_left
       (forEachEntry "https://example.com" 1000 (Some "https://example.com/app.js"))
       timeline st)
  = Some (startOf 1000 (markEntry "sentry-tracing-init" 200)).
Proof.
  intros st timeline.
  destruct (first_match_wins "https://example.com" 1000 (Some "https://example.com/app.js")
              [resourceEntry "https://example.com/app.js" "script" 50 30]
              (markEntry "sentry-tracing-init" 200)
              [markEntry "sentry-tracing-init" 900] st eq_refl) as [H _].
  apply H; reflexivity.
Defined.

(** ** Sequences of calls *)

(** What can happen to an instrumentation object after its construction:
    a call of [addPerformanceEntries], on the platform as it is at that
    time, or a firing of one of the two web-vital callbacks. *)
Inductive Event :=
| Project (env : Env) (transaction : Transaction)
| FireLCP (performance : Performance) (metric : Metric)
| FireFID (performance : Performance) (metric : Metric).

Definition step (this : MetricsInstrumentation) (event : Event)
  : MetricsInstrumentation :=
  match event with
  | Project env transaction => fst (addPerformanceEntries env this transaction)
  | FireLCP performance metric => fst (_trackLCP performance metric this)
  | FireFID performance metric => fst (_trackFID performance metric this)
  end.

(** The instrumentation after each event. *)
Fixpoint history (this : MetricsInstrumentation) (events : list Event)
  : list MetricsInstrumentation :=
  match events with
  | [] => []
  | event :: events => step this event :: history (step this event) events
  end.

(** The timeline a call gets to read, if the gatekeeper lets it through. *)
Definition visible (env : Env) : option (list PerformanceEntry) :=
  match gatekeeper env with
  | Some (_, timeline, _) => Some timeline
  | None => None
  end.

(** The slice handed to [forEach]: [getEntries().slice(cursor)]. *)
Definition scanned (env : Env) (this : MetricsInstrumentation)
  : list PerformanceEntry :=
  match visible env with
  | Some timeline => drop (_performanceCursor this) timeline
  | None => []
  end.

(** The timeline only grows: what a call sees extends what the calls before
    it saw. *)
Fixpoint appendOnly (seen : list PerformanceEntry) (events : list Event) : Prop :=
  match events with
  | [] => True
  | Project env _ :: events =>
      match visible env with
      | Some timeline => seen `prefix_of` timeline /\ appendOnly timeline events
      | None => appendOnly seen events
      end
  | _ :: events => appendOnly seen events
  end.

Definition cursors (this : MetricsInstrumentation) (events : list Event) : list nat :=
  _performanceCursor <$> (this :: history this events).

Lemma scan_scanned env window timeline origin this transaction :
  gatekeeper env = Some (window, timeline, origin) ->
  scan window timeline (msToSec origin) this transaction
  = fold_left
      (forEachEntry (location_origin window) (msToSec origin) (findEntryScript window))
      (scanned env this)
      {| sc_transaction := transaction;
         sc_this := this;
         entryScriptStartTimestamp := None;
         tracingInitMarkStartTime := None |}.
Proof. unfold scanned, visible, scan. intros ->. reflexivity. Qed.

Lemma _trackNavigator_cursor navigator this :
  _performanceCursor (_trackNavigator navigator this) = _performanceCursor this.
Proof.
  unfold _trackNavigator.
  repeat match goal with
         | |- context [match ?x with _ => _ end] => destruct x
         end; reflexivity.
Qed.

Lemma new_cursor env : _performanceCursor (new env) = 0.
Proof.
  unfold new. destruct (global env) as [window|]; [|reflexivity].
  destruct (performance window); [|reflexivity].
  apply _trackNavigator_cursor.
Qed.

Lemma trackVital_cursor key performance metric this :
  _performanceCursor (fst (trackVital key performance metric this))
  = _performanceCursor this.
Proof.
  unfold trackVital. destruct (JS.pop (entries metric)) as [[entry|] rest]; reflexivity.
Qed.

Lemma project_cursor env this transaction :
  _performanceCursor (fst (addPerformanceEntries env this transaction))
  = match visible env with
    | Some timeline => nextCursor timeline
    | None => _performanceCursor this
    end.
Proof.
  unfold addPerformanceEntries, visible.
  destruct (gatekeeper env) as [[[window timeline] origin]|]; [|reflexivity].
  cbn zeta. destruct (String.eqb _ "pageload"); cbn [fst].
  - apply _trackNavigator_cursor.
  - reflexivity.
Qed.

Lemma nextCursor_max timeline :
  Z.of_nat (nextCursor timeline) = Z.max (Z.of_nat (length timeline) - 1) 0.
Proof. unfold nextCursor. lia. Qed.

Lemma nextCursor_prefix seen timeline :
  seen `prefix_of` timeline -> nextCursor seen <= nextCursor timeline.
Proof. intros H%prefix_length. unfold nextCursor. lia. Qed.

Lemma appendOnly_app seen events1 events2 :
  appendOnly seen (events1 ++ events2) -> appendOnly seen events1.
Proof.
  revert seen. induction events1 as [|[env tx| |] events1 IH]; intros seen; cbn; auto.
  destruct (visible env); [|apply IH]. intros [? ?]. split; auto.
Qed.

(** Every later cursor is at least the current one, as long as the current
    one does not exceed what the timeline seen so far allows. *)
Lemma history_lower_bound events :
  forall seen this,
    _performanceCursor this <= nextCursor seen ->
    appendOnly seen events ->
    Forall (fun that => _performanceCursor this <= _performanceCursor that)
      (history this events).
Proof.
  induction events as [|event events IH]; intros seen this Hinv Happ; [constructor|].
  cbn [history].
  assert (exists seen',
             _performanceCursor this <= _performanceCursor (step this event)
             /\ _performanceCursor (step this event) <= nextCursor seen'
             /\ appendOnly seen' events) as (seen' & Hle & Hinv' & Happ').
  { destruct event as [env tx|perf metric|perf metric]; cbn [step appendOnly] in *.
    - rewrite project_cursor. destruct (visible env) as [timeline|].
      + destruct Happ as [Hpre Happ]. exists timeline.
        pose proof (nextCursor_prefix _ _ Hpre). repeat split; [lia|lia|exact Happ].
      + exists seen. repeat split; [lia|lia|exact Happ].
    - unfold _trackLCP. rewrite trackVital_cursor. exists seen. auto.
    - unfold _trackFID. rewrite trackVital_cursor. exists seen. auto. }
  constructor; [exact Hle|].
  eapply Forall_impl; [apply (IH seen' _ Hinv' Happ')|].
  cbn. intros that Hthat. lia.
Qed.

Lemma cursors_monotone events :
  forall seen this,
    _performanceCursor this <= nextCursor seen ->
    appendOnly seen events ->
    forall i j ci cj,
      i <= j ->
      cursors this events !! i = Some ci ->
      cursors this events !! j = Some cj ->
      ci <= cj.
Proof.
  unfold cursors.
  induction events as [|event events IH]; intros seen this Hinv Happ i j ci cj Hij Hi Hj.
  - destruct i, j; cbn in *; try discriminate; try lia.
    injection Hi as <-. injection Hj as <-. lia.
  - pose proof (history_lower_bound _ _ _ Hinv Happ) as Hlow.
    destruct i as [|i].
    + cbn in Hi. injection Hi as <-.
      rewrite list_lookup_fmap in Hj.
      apply fmap_Some in Hj as (that & Hthat & ->).
      destruct j as [|j]; [cbn in Hthat; injection Hthat as <-; lia|].
      rewrite lookup_cons in Hthat.
      rewrite Forall_forall in Hlow. apply Hlow.
      eapply list_elem_of_lookup_2, Hthat.
    + destruct j as [|j]; [lia|].
      cbn [history] in Hi, Hj.
      assert (exists seen',
                 _performanceCursor (step this event) <= nextCursor seen'
                 /\ appendOnly seen' events) as (seen' & Hinv' & Happ').
      { destruct event as [env tx|perf metric|perf metric]; cbn [step appendOnly] in *.
        - rewrite project_cursor. destruct (visible env) as [timeline|].
          + destruct Happ as [Hpre Happ]. exists timeline. split; [lia|exact Happ].
          + exists seen. split; [lia|exact Happ].
        - unfold _trackLCP. rewrite trackVital_cursor. exists seen. auto.
        - unfold _trackFID. rewrite trackVital_cursor. exists seen. auto. }
      apply (IH seen' (step this event) Hinv' Happ' i j ci cj); [lia|exact Hi|exact Hj].
Qed.

Lemma cursors_last events :
  forall this,
    cursors this events !! length events
    = Some (_performanceCursor (fold_left step events this)).
Proof.
  unfold cursors. induction events as [|event events IH]; intros this; [reflexivity|].
  cbn [history length fold_left]. rewrite fmap_cons, lookup_cons. apply IH.
Qed.

Lemma cursors_length this events : length (cursors this events) = S (length events).
Proof.
  unfold cursors. rewrite length_fmap. cbn. f_equal.
  revert this. induction events as [|event events IH]; intros this; cbn; auto.
Qed.

(** C3: the cursor is 0 on a new instrumentation object; after a call that
    passes the gatekeeper it is [max(length - 1, 0)] for the timeline that
    call read; over any sequence of calls (and web-vital firings) on a
    timeline that only grows, the cursor never decreases, and every entry
    a call dispatches sits at a timeline index that is not below any
    earlier value of the cursor. *)
Theorem cursor_monotone env0 events :
  appendOnly [] events ->
  let this0 := new env0 in
  _performanceCursor initial = 0
  /\ _performanceCursor this0 = 0
  /\ (forall this env transaction timeline,
        visible env = Some timeline ->
        Z.of_nat (_performanceCursor (step this (Project env transaction)))
        = Z.max (Z.of_nat (length timeline) - 1) 0)
  /\ (forall i j ci cj,
        i <= j ->
        cursors this0 events !! i = Some ci ->
        cursors this0 events !! j = Some cj ->
        ci <= cj)
  /\ (forall earlier env transaction rest,
        events = earlier ++ Project env transaction :: rest ->
        let this := fold_left step earlier this0 in
        forall c, c ∈ cursors this0 earlier ->
        forall i entry,
          scanned env this !! i = Some entry ->
          exists timeline,
            visible env = Some timeline
            /\ timeline !! (_performanceCursor this + i) = Some entry
            /\ c <= _performanceCursor this + i).
Proof.
  intros Happ this0.
  assert (Hinv : _performanceCursor this0 <= nextCursor []).
  { unfold this0. rewrite new_cursor. cbn. lia. }
  split; [reflexivity|]. split; [apply new_cursor|]. split; [|split].
  - intros this env transaction timeline Hvis. cbn [step].
    rewrite project_cursor, Hvis. apply nextCursor_max.
  - apply (cursors_monotone events [] this0 Hinv Happ).
  - intros earlier env transaction rest -> this c Hc i entry Hentry.
    unfold scanned in Hentry.
    destruct (visible env) as [timeline|]; [|discriminate].
    exists timeline. split; [reflexivity|].
    rewrite lookup_drop in Hentry. split; [exact Hentry|].
    apply list_elem_of_lookup_1 in Hc as [k Hk].
    assert (k <= length earlier).
    { apply lookup_lt_Some in Hk. rewrite cursors_length in Hk. lia. }
    pose proof (cursors_monotone earlier [] this0 Hinv (appendOnly_app _ _ _ Happ)
                  k (length earlier) c (_performanceCursor this)) as Hmono.
    unfold this at 1. rewrite <- Nat.le_add_r.
    apply Hmono; [assumption|exact Hk|apply cursors_last].
Qed.

(** Two calls on a growing timeline, with a web vital firing in between and
    a last call on a platform without timeline. *)
Definition session : list Event :=
  [ Project (page [paintEntry "first-paint" 234])
      (emptyTransaction "pageload" 1000);
    FireLCP somePerformance
      {| value := 2500; entries := [paintEntry "largest" 2500] |};
    Project (page ([paintEntry "first-paint" 234] ++ prefetchedTimeline))
      (emptyTransaction "navigation" 1001);
    Project noTimeline (emptyTransaction "navigation" 1002) ].

Lemma cursor_monotone_witness :
  appendOnly [] session
  /\ cursors (new (page [])) session = [0; 0; 0; 3; 3]
  /\ (forall i j ci cj,
        i <= j ->
        cursors (new (page [])) session !! i = Some ci ->
        cursors (new (page [])) session !! j = Some cj ->
        ci <= cj).
Proof.
  assert (H : appendOnly [] session).
  { cbn. split; [eexists; reflexivity|]. split; [eexists; reflexivity|exact I]. }
  split; [exact H|].
  destruct (cursor_monotone (page []) session H) as (_ & _ & _ & Hmono & _).
  split; [reflexivity | exact Hmono].
Defined.

(** ** Repeated calls on an unchanged timeline *)

(** On a timeline that did not grow, the next call scans its last entry
    again. *)
Lemma rescans_last_entry env this transaction timeline :
  visible env = Some timeline ->
  scanned env (step this (Project env transaction))
  = drop (length timeline - 1) timeline.
Proof.
  intros Hvis. unfold scanned. cbn [step]. rewrite project_cursor, Hvis.
  f_equal. unfold nextCursor. lia.
Qed.

(** C1 does not hold on the code: with a timeline whose last entry is the
    tracing-init mark, a second call with no new entry in between adds the
    span of that mark to the transaction once more. *)
Theorem second_call_adds_span :
  let env := page prefetchedTimeline in
  let first := addPerformanceEntries env (new env) (emptyTransaction "pageload" 1000) in
  let second := addPerformanceEntries env (fst first) (snd first) in
  map description (tx_spans (snd first))
  = ["/app.js"; "sentry-tracing-init"; "evaluation"]
  /\ _performanceCursor (fst first) = 2
  /\ scanned env (fst first) = [markEntry "sentry-tracing-init" 200]
  /\ map description (tx_spans (snd second))
     = ["/app.js"; "sentry-tracing-init"; "evaluation"; "sentry-tracing-init"].
Proof. vm_compute. repeat split. Qed.

(** * Further properties of the projector *)

(** ** Relations every child span respects *)

(** A relation between the transaction before and after that is reflexive,
    transitive, holds across [_startChild] and across the final attachment
    holds across every function of the module. *)
Section Lifting.

Variable R : Transaction -> Transaction -> Prop.
Hypothesis R_refl : forall t, R t t.
Hypothesis R_trans : forall t1 t2 t3, R t1 t2 -> R t2 t3 -> R t1 t3.
Hypothesis R_child : forall t ctx, R t (fst (_startChild t ctx)).
Hypothesis R_attach :
  forall t contexts measurements,
    R t (setMeasurements (setContexts t contexts) measurements).

Lemma lift_addPerformanceNavigationTiming transaction entry event timeOrigin :
  R transaction (addPerformanceNavigationTiming transaction entry event timeOrigin).
Proof.
  unfold addPerformanceNavigationTiming. destruct (negb _ || negb _); auto.
Qed.

Lemma lift_addRequest transaction entry timeOrigin :
  R transaction (addRequest transaction entry timeOrigin).
Proof. unfold addRequest. eapply R_trans; apply R_child. Qed.

Lemma lift_addNavigationSpans transaction entry timeOrigin :
  R transaction (addNavigationSpans transaction entry timeOrigin).
Proof.
  unfold addNavigationSpans.
  eapply R_trans; [|apply lift_addRequest].
  do 4 (eapply R_trans; [|apply lift_addPerformanceNavigationTiming]).
  apply lift_addPerformanceNavigationTiming.
Qed.

Lemma lift_addResourceSpans transaction entry resourceName startTime duration timeOrigin :
  R transaction
    (fst (addResourceSpans transaction entry resourceName startTime duration timeOrigin)).
Proof.
  unfold addResourceSpans. destruct (_ || _); cbn [fst]; auto.
Qed.

Lemma lift_forEachEntry origin timeOrigin entryScriptSrc st entry :
  R (sc_transaction st)
    (sc_transaction (forEachEntry origin timeOrigin entryScriptSrc st entry)).
Proof.
  unfold forEachEntry.
  destruct (skipped _ _ _); [apply R_refl|].
  destruct (String.eqb (e_entryType entry) "navigation").
  { apply lift_addNavigationSpans. }
  destruct (isMeasure entry).
  { unfold addMeasureSpans. apply R_child. }
  destruct (String.eqb (e_entryType entry) "resource"); [|apply R_refl].
  pose proof (lift_addResourceSpans (sc_transaction st) entry
                (JS.removeFirst (e_name entry) origin)
                (msToSec (e_startTime entry)) (msToSec (e_duration entry)) timeOrigin) as H.
  destruct (addResourceSpans _ _ _ _ _ _). exact H.
Qed.

Lemma lift_dispatch origin timeOrigin entryScriptSrc timeline :
  forall st,
    R (sc_transaction st)
      (sc_transaction (fold_left (forEachEntry origin timeOrigin entryScriptSrc) timeline st)).
Proof.
  induction timeline as [|entry timeline IH]; intros st; [apply R_refl|].
  cbn. eapply R_trans; [apply lift_forEachEntry | apply IH].
Qed.

Lemma lift_addEvaluation st : R (sc_transaction st) (addEvaluation st).
Proof.
  unfold addEvaluation.
  destruct (entryScriptStartTimestamp st), (tracingInitMarkStartTime st); auto.
Qed.

Lemma lift_addPerformanceEntries env this transaction :
  R transaction (snd (addPerformanceEntries env this transaction)).
Proof.
  unfold addPerformanceEntries.
  destruct (gatekeeper env) as [[[window timeline] origin]|]; [|apply R_refl].
  cbn zeta.
  assert (R transaction (addEvaluation (scan window timeline (msToSec origin) this transaction)))
    as H.
  { eapply R_trans; [|apply lift_addEvaluation].
    unfold scan. apply (lift_dispatch _ _ _ _ {| sc_transaction := transaction |}). }
  destruct (String.eqb _ "pageload"); cbn [snd]; [|exact H].
  eapply R_trans; [exact H | apply R_attach].
Qed.

End Lifting.

(** ** Children are only ever added *)

Definition keepsChildren (t1 t2 : Transaction) : Prop :=
  tx_spans t1 `prefix_of` tx_spans t2.

(** X1: [addPerformanceEntries] (and [_startChild]) never removes, replaces
    or reorders a child of the transaction: the children it had are the
    first children it has afterwards. *)
Theorem children_kept env this transaction :
  tx_spans transaction
    `prefix_of` tx_spans (snd (addPerformanceEntries env this transaction))
  /\ (forall ctx,
        tx_spans transaction `prefix_of` tx_spans (fst (_startChild transaction ctx))).
Proof.
  split.
  - apply (lift_addPerformanceEntries keepsChildren); unfold keepsChildren.
    + intros t. reflexivity.
    + intros t1 t2 t3 H12 H23. etransitivity; eassumption.
    + intros t ctx. rewrite _startChild_spans. apply prefix_app_r. reflexivity.
    + intros t c m. reflexivity.
  - intros ctx. rewrite _startChild_spans. apply prefix_app_r. reflexivity.
Qed.

(** ** The start of the transaction never moves later *)

Lemma float_ltb_trans x y z :
  PrimFloat.ltb x y = true -> PrimFloat.ltb y z = true -> PrimFloat.ltb x z = true.
Proof.
  rewrite !FloatAxioms.ltb_spec. unfold SFltb. intros Hxy Hyz.
  rewrite (FloatOrder.SFcompare_Lt_le_trans (Prim2SF x) (Prim2SF y) (Prim2SF z));
    [reflexivity| |].
  - destruct (SFcompare (Prim2SF x) (Prim2SF y)) as [[]|]; congruence.
  - destruct (SFcompare (Prim2SF y) (Prim2SF z)) as [[]|]; auto; congruence.
Qed.

Definition notLater (t1 t2 : Transaction) : Prop :=
  tx_startTimestamp t2 = tx_startTimestamp t1
  \/ PrimFloat.ltb (tx_startTimestamp t2) (tx_startTimestamp t1) = true.

(** X2: after [addPerformanceEntries] (and after [_startChild]) the start
    timestamp of the transaction is either what it was or strictly earlier;
    it is never moved later, whatever the timeline holds. *)
Theorem start_never_later env this transaction :
  notLater transaction (snd (addPerformanceEntries env this transaction))
  /\ (forall ctx, notLater transaction (fst (_startChild transaction ctx))).
Proof.
  assert (Hchild : forall t ctx, notLater t (fst (_startChild t ctx))).
  { intros t ctx. unfold notLater, _startChild.
    destruct (startTimestamp ctx) as [s|]; [|left; reflexivity].
    destruct (JS.truthy s); cbn [andb]; [|left; reflexivity].
    destruct (PrimFloat.ltb s (tx_startTimestamp t)) eqn:Hlt; [right; exact Hlt|left; reflexivity]. }
  split; [|apply Hchild].
  apply (lift_addPerformanceEntries notLater); [| |exact Hchild|]; unfold notLater.
  - intros t. left. reflexivity.
  - intros t1 t2 t3 [-> | H12] [-> | H23]; auto.
    right. eapply float_ltb_trans; eassumption.
  - intros t c m. left. reflexivity.
Qed.

(** ** The spans of an entry *)

(** The auxiliary data of a resource span. *)
Definition resourceData (entry : PerformanceEntry) : gmap string float :=
  copyField entry "decodedBodySize" "Decoded Body Size"
    (copyField entry "encodedBodySize" "Encoded Body Size"
       (copyField entry "transferSize" "Transfer Size" ∅)).

Definition resourceSpan (origin : string) (timeOrigin : float)
    (entry : PerformanceEntry) : Span :=
  {| description := JS.removeFirst (e_name entry) origin;
     endTimestamp := Some (endOf timeOrigin entry);
     op := match e_initiatorType entry with
           | Some t => if JS.truthyStr t then ("resource." ++ t)%string else "resource"
           | None => "resource"
           end;
     startTimestamp := Some (startOf timeOrigin entry);
     data := Some (resourceData entry) |}.

Definition measureSpan (timeOrigin : float) (entry : PerformanceEntry) : Span :=
  {| description := e_name entry;
     endTimestamp := Some (endOf timeOrigin entry);
     op := e_entryType entry;
     startTimestamp := Some (startOf timeOrigin entry);
     data := None |}.

(** The children a dispatched entry gives rise to, in order. *)
Definition entrySpans (origin : string) (timeOrigin : float)
    (entry : PerformanceEntry) : list Span :=
  if String.eqb (e_entryType entry) "navigation" then
    timingSpans entry "unloadEvent" timeOrigin
    ++ timingSpans entry "domContentLoadedEvent" timeOrigin
    ++ timingSpans entry "loadEvent" timeOrigin
    ++ timingSpans entry "connect" timeOrigin
    ++ timingSpans entry "domainLookup" timeOrigin
    ++ requestSpans entry timeOrigin
  else if isMeasure entry then [measureSpan timeOrigin entry]
  else if String.eqb (e_entryType entry) "resource" then
    if deduplicated entry then [] else [resourceSpan origin timeOrigin entry]
  else [].

Lemma addResourceSpans_spans transaction entry origin timeOrigin :
  tx_spans (fst (addResourceSpans transaction entry (JS.removeFirst (e_name entry) origin)
                   (msToSec (e_startTime entry)) (msToSec (e_duration entry)) timeOrigin))
  = tx_spans transaction
    ++ (if deduplicated entry then [] else [resourceSpan origin timeOrigin entry]).
Proof.
  unfold addResourceSpans, deduplicated.
  destruct (_ || _); cbn [fst]; [rewrite app_nil_r; reflexivity|].
  rewrite _startChild_spans. reflexivity.
Qed.

Lemma forEachEntry_spans origin timeOrigin entryScriptSrc st entry :
  tx_spans (sc_transaction (forEachEntry origin timeOrigin entryScriptSrc st entry))
  = tx_spans (sc_transaction st)
    ++ (if skipped timeOrigin (sc_transaction st) entry then []
        else entrySpans origin timeOrigin entry).
Proof.
  unfold forEachEntry, entrySpans.
  destruct (skipped _ _ _); [rewrite app_nil_r; reflexivity|].
  destruct (String.eqb (e_entryType entry) "navigation").
  { apply addNavigationSpans_spans. }
  destruct (isMeasure entry).
  { unfold addMeasureSpans. cbn [sc_transaction fst]. apply _startChild_spans. }
  destruct (String.eqb (e_entryType entry) "resource"); [|rewrite app_nil_r; reflexivity].
  pose proof (addResourceSpans_spans (sc_transaction st) entry origin timeOrigin) as H.
  destruct (addResourceSpans _ _ _ _ _ _). exact H.
Qed.

Lemma dispatch_spans origin timeOrigin entryScriptSrc timeline :
  forall st,
    tx_op (sc_transaction st) <> "navigation" ->
    tx_spans (sc_transaction
                (fold_left (forEachEntry origin timeOrigin entryScriptSrc) timeline st))
    = tx_spans (sc_transaction st) ++ flat_map (entrySpans origin timeOrigin) timeline.
Proof.
  induction timeline as [|entry timeline IH]; intros st Hop;
    [cbn; rewrite app_nil_r; reflexivity|].
  cbn [fold_left flat_map]. rewrite IH.
  - rewrite forEachEntry_spans, not_navigation_not_skipped by assumption.
    rewrite <- app_assoc. reflexivity.
  - destruct (forEachEntry_frame origin timeOrigin entryScriptSrc st entry) as [-> _].
    exact Hop.
Qed.

(** X3: for a transaction whose operation kind is not "navigation", on a
    platform that passes the gatekeeper, the children after
    [addPerformanceEntries] are the children before, followed by the spans of
    each scanned entry in timeline order, followed by the "evaluation" span
    when the slice holds both an entry-script resource and a tracing-init
    mark.  The children added do not depend on the transaction they are
    added to. *)
Theorem children_of_scan env window timeline origin this transaction :
  gatekeeper env = Some (window, timeline, origin) ->
  tx_op transaction <> "navigation" ->
  let timeOrigin := msToSec origin in
  let slice := drop (_performanceCursor this) timeline in
  tx_spans (snd (addPerformanceEntries env this transaction))
  = tx_spans transaction
    ++ flat_map (entrySpans (location_origin window) timeOrigin) slice
    ++ match List.find
               (fun entry =>
                  isEntryScript (location_origin window) (findEntryScript window) entry
                  && negb (deduplicated entry)) slice,
             List.find isTracingInit slice with
       | Some script, Some init =>
           [evaluationSpan (endOf timeOrigin script) (startOf timeOrigin init)]
       | _, _ => []
       end.
Proof.
  intros Hgate Hop timeOrigin slice. unfold addPerformanceEntries. rewrite Hgate.
  cbn zeta.
  set (st := scan window timeline (msToSec origin) this transaction).
  assert (Hspans : tx_spans (addEvaluation st)
                   = tx_spans transaction
                     ++ flat_map (entrySpans (location_origin window) timeOrigin) slice
                     ++ match List.find
                                (fun entry =>
                                   isEntryScript (location_origin window)
                                     (findEntryScript window) entry
                                   && negb (deduplicated entry)) slice,
                              List.find isTracingInit slice with
                        | Some script, Some init =>
                            [evaluationSpan (endOf timeOrigin script) (startOf timeOrigin init)]
                        | _, _ => []
                        end).
  { rewrite addEvaluation_spans. unfold st, scan.
    rewrite dispatch_spans by exact Hop.
    rewrite dispatch_tracingInit_first, dispatch_entryScript_first by (exact Hop || reflexivity).
    fold slice. fold timeOrigin. cbn [sc_transaction]. rewrite <- app_assoc.
    do 2 f_equal.
    destruct (List.find _ slice), (List.find isTracingInit slice); reflexivity. }
  destruct (String.eqb _ "pageload"); exact Hspans.
Qed.

Lemma children_of_scan_witness :
  tx_spans (snd (addPerformanceEntries (page prefetchedTimeline) initial
                   (emptyTransaction "pageload" 1000)))
  = [ resourceSpan "https://example.com" 1000
        (resourceEntry "https://example.com/app.js" "script" 50 30);
      measureSpan 1000 (markEntry "sentry-tracing-init" 200);
      evaluationSpan
        (endOf 1000 (resourceEntry "https://example.com/app.js" "script" 50 30))
        (startOf 1000 (markEntry "sentry-tracing-init" 200)) ].
Proof.
  erewrite (children_of_scan (page prefetchedTimeline)); [|reflexivity|discriminate].
  reflexivity.
Defined.

Lemma timingSpans_length entry event timeOrigin :
  length (timingSpans entry event timeOrigin) <= 1.
Proof. unfold timingSpans. destruct (_ && _); cbn; lia. Qed.

(** X4: a navigation entry adds at least two and at most seven children,
    the last two being the "request" and the "response" span. *)
Theorem navigation_span_count transaction entry timeOrigin :
  let added :=
    length (tx_spans (addNavigationSpans transaction entry timeOrigin))
    - length (tx_spans transaction) in
  2 <= added <= 7
  /\ map description
       (drop (length (tx_spans (addNavigationSpans transaction entry timeOrigin)) - 2)
          (tx_spans (addNavigationSpans transaction entry timeOrigin)))
     = ["request"; "response"].
Proof.
  rewrite addNavigationSpans_spans.
  pose proof (timingSpans_length entry "unloadEvent" timeOrigin).
  pose proof (timingSpans_length entry "domContentLoadedEvent" timeOrigin).
  pose proof (timingSpans_length entry "loadEvent" timeOrigin).
  pose proof (timingSpans_length entry "connect" timeOrigin).
  pose proof (timingSpans_length entry "domainLookup" timeOrigin).
  cbn zeta. split.
  - rewrite !length_app. cbn [length requestSpans]. lia.
  - rewrite !app_assoc.
    rewrite drop_app_length'; [reflexivity|].
    rewrite (length_app _ (requestSpans entry timeOrigin)). cbn [requestSpans length]. lia.
Qed.

(** ** Resource spans *)

Lemma resourceData_lookup entry :
  resourceData entry !! "Transfer Size" = e_fields entry !! "transferSize"
  /\ resourceData entry !! "Encoded Body Size" = e_fields entry !! "encodedBodySize"
  /\ resourceData entry !! "Decoded Body Size" = e_fields entry !! "decodedBodySize"
  /\ (forall key,
        key <> "Transfer Size" -> key <> "Encoded Body Size" ->
        key <> "Decoded Body Size" ->
        resourceData entry !! key = None).
Proof.
  unfold resourceData, copyField.
  destruct (e_fields entry !! "transferSize"),
    (e_fields entry !! "encodedBodySize"),
    (e_fields entry !! "decodedBodySize");
    repeat split; intros; simplify_map_eq; reflexivity.
Qed.

(** X5: a resource entry that is not deduplicated adds exactly one child,
    named by the resource name it is given, and returns the end timestamp of
    that child; the data of the child holds the transfer, encoded and decoded
    sizes under their labels exactly when the entry has them, and nothing
    else. *)
Theorem resource_span_data transaction entry resourceName startTime duration timeOrigin :
  deduplicated entry = false ->
  let result :=
    addResourceSpans transaction entry resourceName startTime duration timeOrigin in
  exists span sizes,
    tx_spans (fst result) = tx_spans transaction ++ [span]
    /\ description span = resourceName
    /\ startTimestamp span = Some (timeOrigin + startTime)%float
    /\ endTimestamp span = snd result
    /\ snd result = Some (timeOrigin + startTime + duration)%float
    /\ data span = Some sizes
    /\ sizes !! "Transfer Size" = e_fields entry !! "transferSize"
    /\ sizes !! "Encoded Body Size" = e_fields entry !! "encodedBodySize"
    /\ sizes !! "Decoded Body Size" = e_fields entry !! "decodedBodySize"
    /\ (forall key,
          key <> "Transfer Size" -> key <> "Encoded Body Size" ->
          key <> "Decoded Body Size" ->
          sizes !! key = None).
Proof.
  unfold deduplicated, addResourceSpans. intros ->. cbn zeta.
  eexists _, (resourceData entry). cbn [fst snd].
  rewrite _startChild_spans.
  split; [reflexivity|]. cbn [description startTimestamp endTimestamp data].
  repeat (split; [reflexivity|]).
  apply resourceData_lookup.
Qed.

Definition imageEntry : PerformanceEntry :=
  {| e_entryType := "resource";
     e_name := "https://example.com/logo.png";
     e_startTime := 300;
     e_duration := 40;
     e_initiatorType := Some "img";
     e_fields := {[ "transferSize" := 2048%float; "decodedBodySize" := 4096%float ]} |}.

Lemma resource_span_data_witness :
  exists span sizes,
    tx_spans (fst (addResourceSpans (emptyTransaction "pageload" 1000) imageEntry
                     "/logo.png" 0.3 0.04 1000))
    = [span]
    /\ op span = "resource.img"
    /\ data span = Some sizes
    /\ sizes !! "Transfer Size" = Some 2048%float
    /\ sizes !! "Encoded Body Size" = None.
Proof.
  destruct (resource_span_data (emptyTransaction "pageload" 1000) imageEntry
              "/logo.png" 0.3 0.04 1000 eq_refl)
    as (span & sizes & Hspans & _ & _ & _ & _ & Hdata & Ht & He & _).
  exists span, sizes. split; [exact Hspans|].
  split; [|split; [exact Hdata|split; [rewrite Ht|rewrite He]; reflexivity]].
  cbn in Hspans. injection Hspans as <-. reflexivity.
Defined.

(** ** Entries that leave no trace *)

(** The entry reaches a case of the dispatch that does something. *)
Definition contributes (entry : PerformanceEntry) : bool :=
  String.eqb (e_entryType entry) "navigation"
  || isMeasure entry
  || (String.eqb (e_entryType entry) "resource" && negb (deduplicated entry)).

Lemma forEachEntry_ignored origin timeOrigin entryScriptSrc st entry :
  contributes entry = false ->
  forEachEntry origin timeOrigin entryScriptSrc st entry = st.
Proof.
  unfold contributes, forEachEntry, deduplicated.
  intros [[Hnav Hm]%orb_false_iff Hres]%orb_false_iff.
  rewrite Hnav, Hm. destruct (skipped _ _ _); [reflexivity|].
  destruct (String.eqb (e_entryType entry) "resource"); [|reflexivity].
  cbn [andb] in Hres. apply negb_false_iff in Hres.
  unfold addResourceSpans. rewrite Hres.
  destruct st as [tx this [s|] init]; cbn; [reflexivity|].
  destruct (JS.includes _ _); reflexivity.
Qed.

(** X6: entries of a type other than navigation, mark, paint, measure and
    resource, and resource entries initiated by [fetch] or
    [xmlhttprequest], can be taken out of the scanned slice without changing
    anything the scan produces: spans, transaction start, measurements and
    the two remembered timestamps. *)
Theorem ignored_entries_removable origin timeOrigin entryScriptSrc timeline st :
  fold_left (forEachEntry origin timeOrigin entryScriptSrc) timeline st
  = fold_left (forEachEntry origin timeOrigin entryScriptSrc)
      (List.filter contributes timeline) st.
Proof.
  revert st. induction timeline as [|entry timeline IH]; intros st; [reflexivity|].
  cbn [fold_left List.filter]. destruct (contributes entry) eqn:Hc.
  - cbn [fold_left]. apply IH.
  - rewrite forEachEntry_ignored by exact Hc. apply IH.
Qed.

(** ** The navigation filter *)

Lemma forEachEntry_skipped origin timeOrigin entryScriptSrc st entry :
  skipped timeOrigin (sc_transaction st) entry = true ->
  forEachEntry origin timeOrigin entryScriptSrc st entry = st.
Proof. unfold forEachEntry. intros ->. reflexivity. Qed.

(** X7: for a "navigation" transaction, when every scanned entry starts
    before the transaction does, [addPerformanceEntries] leaves the
    transaction and the measurements exactly as they were: entries from
    before the navigation add nothing and do not pull the start back. *)
Theorem earlier_entries_filtered env window timeline origin this transaction :
  gatekeeper env = Some (window, timeline, origin) ->
  tx_op transaction = "navigation" ->
  Forall
    (fun entry =>
       PrimFloat.ltb (msToSec origin + msToSec (e_startTime entry))%float
         (tx_startTimestamp transaction) = true)
    (drop (_performanceCursor this) timeline) ->
  snd (addPerformanceEntries env this transaction) = transaction
  /\ _measurements (fst (addPerformanceEntries env this transaction)) = _measurements this
  /\ _browserContext (fst (addPerformanceEntries env this transaction))
     = _browserContext this.
Proof.
  intros Hgate Hop Hall. unfold addPerformanceEntries. rewrite Hgate. cbn zeta.
  assert (Hscan : scan window timeline (msToSec origin) this transaction
                  = {| sc_transaction := transaction; sc_this := this;
                       entryScriptStartTimestamp := None;
                       tracingInitMarkStartTime := None |}).
  { unfold scan.
    induction (drop (_performanceCursor this) timeline) as [|entry slice IH];
      [reflexivity|].
    apply Forall_cons in Hall as [Hentry Hall]. cbn [fold_left].
    rewrite forEachEntry_skipped; [apply IH, Hall|].
    unfold skipped. cbn [sc_transaction]. rewrite Hop, Hentry. reflexivity. }
  rewrite Hscan. cbn. rewrite Hop. cbn. repeat split.
Qed.

Lemma earlier_entries_filtered_witness :
  snd (addPerformanceEntries (page prefetchedTimeline) afterLCP
         (emptyTransaction "navigation" 1005))
  = emptyTransaction "navigation" 1005.
Proof.
  eapply (earlier_entries_filtered (page prefetchedTimeline)); [reflexivity|reflexivity|].
  repeat constructor.
Defined.

(** ** The cursor and the timeline *)

(** X8: when the timeline is empty, or has been cut to no more than the
    cursor, a call scans nothing: the transaction gets no child and keeps
    its start, the measurements of the instrumentation are untouched unless
    the transaction is a "pageload", and the cursor is set to
    [length - 1], which is no higher than the value it had. *)
Theorem truncated_timeline env window timeline origin this transaction :
  gatekeeper env = Some (window, timeline, origin) ->
  length timeline <= _performanceCursor this ->
  let result := addPerformanceEntries env this transaction in
  tx_spans (snd result) = tx_spans transaction
  /\ tx_startTimestamp (snd result) = tx_startTimestamp transaction
  /\ _performanceCursor (fst result) = length timeline - 1
  /\ _performanceCursor (fst result) <= _performanceCursor this
  /\ (tx_op transaction <> "pageload" ->
      snd result = transaction /\ _measurements (fst result) = _measurements this).
Proof.
  intros Hgate Hlen result. subst result.
  assert (Hcur : _performanceCursor (fst (addPerformanceEntries env this transaction))
                 = length timeline - 1).
  { rewrite project_cursor. unfold visible. rewrite Hgate. unfold nextCursor. lia. }
  unfold addPerformanceEntries in *. rewrite Hgate in *. cbn zeta in *.
  assert (Hscan : scan window timeline (msToSec origin) this transaction
                  = {| sc_transaction := transaction; sc_this := this;
                       entryScriptStartTimestamp := None;
                       tracingInitMarkStartTime := None |}).
  { unfold scan. rewrite drop_ge by exact Hlen. reflexivity. }
  rewrite Hscan in *. cbn [addEvaluation entryScriptStartTimestamp sc_transaction sc_this] in *.
  destruct (String.eqb_spec (tx_op transaction) "pageload") as [Hop|Hop];
    cbn [fst snd] in *.
  - split; [reflexivity|]. split; [reflexivity|]. split; [exact Hcur|].
    split; [lia|]. intros Hne. contradiction.
  - split; [reflexivity|]. split; [reflexivity|]. split; [exact Hcur|].
    split; [lia|]. intros _. split; reflexivity.
Qed.

Lemma truncated_timeline_witness :
  let this :=
    fst (addPerformanceEntries (page prefetchedTimeline) initial
           (emptyTransaction "pageload" 1000)) in
  let result :=
    addPerformanceEntries (page [markEntry "sentry-tracing-init" 200]) this
      (emptyTransaction "navigation" 1001) in
  _performanceCursor this = 2
  /\ _performanceCursor (fst result) = 0
  /\ snd result = emptyTransaction "navigation" 1001.
Proof.
  intros this result.
  destruct (truncated_timeline (page [markEntry "sentry-tracing-init" 200])
              _ _ _ this (emptyTransaction "navigation" 1001) eq_refl)
    as (_ & _ & Hcur & _ & Hsame).
  { vm_compute. lia. }
  split; [reflexivity|]. split; [exact Hcur|].
  apply Hsame. discriminate.
Defined.

(** X9: no appended entry is missed: when the timeline has grown by [added]
    since the previous call, the next call scans the last entry the previous
    call saw, once more, followed by every appended entry in order. *)
Theorem appended_entries_scanned env1 env2 this transaction timeline added :
  visible env1 = Some timeline ->
  visible env2 = Some (timeline ++ added) ->
  scanned env2 (step this (Project env1 transaction))
  = drop (length timeline - 1) timeline ++ added.
Proof.
  intros H1 H2. unfold scanned. rewrite H2. cbn [step].
  rewrite project_cursor, H1.
  replace (nextCursor timeline) with (length timeline - 1) by (unfold nextCursor; lia).
  apply drop_app_le. lia.
Qed.

Lemma appended_entries_scanned_witness :
  scanned (page ([paintEntry "first-paint" 234] ++ prefetchedTimeline))
    (step initial
       (Project (page [paintEntry "first-paint" 234]) (emptyTransaction "pageload" 1000)))
  = paintEntry "first-paint" 234 :: prefetchedTimeline.
Proof.
  apply (appended_entries_scanned (page [paintEntry "first-paint" 234])
           (page ([paintEntry "first-paint" 234] ++ prefetchedTimeline))
           initial (emptyTransaction "pageload" 1000)
           [paintEntry "first-paint" 234] prefetchedTimeline);
    reflexivity.
Defined.

(** ** Measurements *)

(** The measurement names a call of [addPerformanceEntries] may write. *)
Definition scanKeys : list string :=
  ["fp"; "mark.fp"; "fcp"; "mark.fcp"; "connection.rtt"; "connection.downlink"].

(** [m2] has every name of [m1], and differs from it at most at
    [scanKeys]. *)
Definition grownFrom (m1 m2 : gmap string float) : Prop :=
  (forall key, ~ In key scanKeys -> m2 !! key = m1 !! key)
  /\ (forall key, is_Some (m1 !! key) -> is_Some (m2 !! key)).

Lemma grownFrom_refl m : grownFrom m m.
Proof. split; auto. Qed.

Lemma grownFrom_trans m1 m2 m3 : grownFrom m1 m2 -> grownFrom m2 m3 -> grownFrom m1 m3.
Proof.
  intros [Ha Hb] [Hc Hd]. split.
  - intros key Hkey. rewrite Hc, Ha by assumption. reflexivity.
  - auto.
Qed.

Lemma grownFrom_insert m key value :
  In key scanKeys -> grownFrom m (<[key := value]> m).
Proof.
  intros Hin. split.
  - intros key' Hkey'. apply lookup_insert_ne. intros ->. contradiction.
  - intros key' Hsome. destruct (decide (key = key')) as [->|Hne].
    + rewrite lookup_insert_eq. eauto.
    + rewrite lookup_insert_ne by assumption. exact Hsome.
Qed.

Ltac scan_key := cbn; tauto.

Lemma forEachEntry_this origin timeOrigin entryScriptSrc st entry :
  grownFrom (_measurements (sc_this st))
    (_measurements (sc_this (forEachEntry origin timeOrigin entryScriptSrc st entry)))
  /\ _browserContext (sc_this (forEachEntry origin timeOrigin entryScriptSrc st entry))
     = _browserContext (sc_this st)
  /\ _performanceCursor (sc_this (forEachEntry origin timeOrigin entryScriptSrc st entry))
     = _performanceCursor (sc_this st).
Proof.
  unfold forEachEntry.
  destruct (skipped _ _ _); [auto using grownFrom_refl|].
  destruct (String.eqb (e_entryType entry) "navigation"); [auto using grownFrom_refl|].
  destruct (isMeasure entry).
  - unfold addMeasureSpans. cbn [sc_this].
    destruct (String.eqb (e_name entry) "first-paint"),
      (String.eqb (e_name entry) "first-contentful-paint");
      cbn [setMeasurement _measurements _browserContext _performanceCursor];
      (split; [|split; reflexivity]);
      repeat (eapply grownFrom_trans; [|apply grownFrom_insert; scan_key]);
      apply grownFrom_refl.
  - destruct (String.eqb (e_entryType entry) "resource"); [|auto using grownFrom_refl].
    destruct (addResourceSpans _ _ _ _ _ _). cbn. auto using grownFrom_refl.
Qed.

Lemma dispatch_this origin timeOrigin entryScriptSrc timeline :
  forall st,
    let st' := fold_left (forEachEntry origin timeOrigin entryScriptSrc) timeline st in
    grownFrom (_measurements (sc_this st)) (_measurements (sc_this st'))
    /\ _browserContext (sc_this st') = _browserContext (sc_this st)
    /\ _performanceCursor (sc_this st') = _performanceCursor (sc_this st).
Proof.
  induction timeline as [|entry timeline IH]; intros st; cbn zeta;
    [auto using grownFrom_refl|].
  cbn [fold_left].
  destruct (IH (forEachEntry origin timeOrigin entryScriptSrc st entry)) as (Hm & Hb & Hc).
  destruct (forEachEntry_this origin timeOrigin entryScriptSrc st entry) as (Hm' & Hb' & Hc').
  split; [eapply grownFrom_trans; eassumption|]. split; congruence.
Qed.

Lemma _trackNavigator_measurements navigator this :
  grownFrom (_measurements this) (_measurements (_trackNavigator navigator this)).
Proof.
  unfold _trackNavigator.
  repeat match goal with
         | |- context [match ?x with _ => _ end] => destruct x
         end;
    cbn [setMeasurement setBrowserContext _measurements];
    repeat (eapply grownFrom_trans; [|apply grownFrom_insert; scan_key]);
    apply grownFrom_refl.
Qed.

(** X10: a call of [addPerformanceEntries] deletes no measurement of the
    instrumentation and changes none outside "fp", "mark.fp", "fcp",
    "mark.fcp", "connection.rtt" and "connection.downlink"; in particular
    what the web-vital callbacks wrote ("lcp", "mark.lcp", "fid",
    "mark.fid") survives every scan.  Unless the transaction is a "pageload"
    the browser context is left alone too. *)
Theorem measurements_grow env this transaction :
  let this' := fst (addPerformanceEntries env this transaction) in
  (forall key, ~ In key scanKeys -> _measurements this' !! key = _measurements this !! key)
  /\ (forall key, is_Some (_measurements this !! key) -> is_Some (_measurements this' !! key))
  /\ _measurements this' !! "lcp" = _measurements this !! "lcp"
  /\ _measurements this' !! "fid" = _measurements this !! "fid"
  /\ (tx_op transaction <> "pageload" -> _browserContext this' = _browserContext this).
Proof.
  cbn zeta.
  assert (Hgrown : grownFrom (_measurements this)
                     (_measurements (fst (addPerformanceEntries env this transaction)))
                   /\ (tx_op transaction <> "pageload" ->
                       _browserContext (fst (addPerformanceEntries env this transaction))
                       = _browserContext this)).
  { unfold addPerformanceEntries.
    destruct (gatekeeper env) as [[[window timeline] origin]|];
      [|split; [apply grownFrom_refl|reflexivity]].
    cbn zeta.
    destruct (dispatch_this (location_origin window) (msToSec origin)
                (findEntryScript window) (drop (_performanceCursor this) timeline)
                {| sc_transaction := transaction; sc_this := this;
                   entryScriptStartTimestamp := None;
                   tracingInitMarkStartTime := None |}) as (Hm & Hb & _).
    cbn zeta in Hm, Hb. cbn [sc_this] in Hm, Hb. fold (scan window timeline (msToSec origin) this transaction) in Hm, Hb.
    destruct (scanned_frame window timeline (msToSec origin) this transaction) as (Hop & _).
    destruct (String.eqb_spec
                (tx_op (addEvaluation (scan window timeline (msToSec origin) this transaction)))
                "pageload") as [Heq|Hne]; cbn [fst].
    - split.
      + eapply grownFrom_trans; [exact Hm|].
        apply (_trackNavigator_measurements (navigator window)
                 {| _measurements := _measurements (sc_this (scan window timeline (msToSec origin) this transaction)) |}).
      + intros Hne. rewrite Hop in Heq. contradiction.
    - split; [exact Hm|]. intros _. exact Hb. }
  destruct Hgrown as [[Hsame Hkept] Hctx].
  split; [exact Hsame|]. split; [exact Hkept|].
  split; [apply Hsame; cbn; intuition discriminate|].
  split; [apply Hsame; cbn; intuition discriminate|exact Hctx].
Qed.

Lemma _trackNavigator_other navigator this key :
  key <> "connection.rtt" -> key <> "connection.downlink" ->
  _measurements (_trackNavigator navigator this) !! key = _measurements this !! key.
Proof.
  intros Hrtt Hdown. unfold _trackNavigator.
  repeat match goal with
         | |- context [match ?x with _ => _ end] => destruct x
         end;
    cbn [setMeasurement setBrowserContext _measurements];
    rewrite ?lookup_insert_ne by congruence; reflexivity.
Qed.

(** ** Paint measurements *)

(** A mark, paint or measure entry of the given name. *)
Definition isNamed (name : string) (entry : PerformanceEntry) : bool :=
  isMeasure entry && String.eqb (e_name entry) name.

Lemma forEachEntry_paint origin timeOrigin entryScriptSrc st entry :
  skipped timeOrigin (sc_transaction st) entry = false ->
  let m := _measurements (sc_this st) in
  let m' := _measurements (sc_this (forEachEntry origin timeOrigin entryScriptSrc st entry)) in
  m' !! "fp" = (if isNamed "first-paint" entry then Some (e_startTime entry) else m !! "fp")
  /\ m' !! "mark.fp"
     = (if isNamed "first-paint" entry then Some (startOf timeOrigin entry) else m !! "mark.fp")
  /\ m' !! "fcp"
     = (if isNamed "first-contentful-paint" entry then Some (e_startTime entry) else m !! "fcp")
  /\ m' !! "mark.fcp"
     = (if isNamed "first-contentful-paint" entry then Some (startOf timeOrigin entry)
        else m !! "mark.fcp").
Proof.
  unfold forEachEntry, isNamed. intros ->. cbn zeta.
  destruct (isMeasure entry) eqn:Hm; cbn [andb].
  - rewrite isMeasure_not_navigation by assumption.
    unfold addMeasureSpans, startOf. cbn [sc_this].
    destruct (String.eqb_spec (e_name entry) "first-paint") as [Hfp|Hfp].
    + rewrite Hfp. cbn [String.eqb Ascii.eqb Bool.eqb andb setMeasurement _measurements].
      repeat split; simplify_map_eq; reflexivity.
    + destruct (String.eqb (e_name entry) "first-contentful-paint");
        cbn [setMeasurement _measurements]; repeat split; simplify_map_eq; reflexivity.
  - destruct (String.eqb (e_entryType entry) "navigation"); [repeat split|].
    destruct (String.eqb (e_entryType entry) "resource"); [|repeat split].
    destruct (addResourceSpans _ _ _ _ _ _). repeat split.
Qed.

(** The value the last entry satisfying [hit] gives, or else the old one. *)
Definition lastWrite (hit : PerformanceEntry -> bool)
    (value : PerformanceEntry -> float) (timeline : list PerformanceEntry)
    (old : option float) : option float :=
  match List.find hit (rev timeline) with
  | Some entry => Some (value entry)
  | None => old
  end.

Lemma dispatch_paint origin timeOrigin entryScriptSrc timeline :
  forall st,
    tx_op (sc_transaction st) <> "navigation" ->
    let m := _measurements (sc_this st) in
    let m' := _measurements
                (sc_this (fold_left (forEachEntry origin timeOrigin entryScriptSrc) timeline st)) in
    m' !! "fp" = lastWrite (isNamed "first-paint") e_startTime timeline (m !! "fp")
    /\ m' !! "mark.fp"
       = lastWrite (isNamed "first-paint") (startOf timeOrigin) timeline (m !! "mark.fp")
    /\ m' !! "fcp"
       = lastWrite (isNamed "first-contentful-paint") e_startTime timeline (m !! "fcp")
    /\ m' !! "mark.fcp"
       = lastWrite (isNamed "first-contentful-paint") (startOf timeOrigin) timeline
           (m !! "mark.fcp").
Proof.
  induction timeline as [|entry timeline IH] using rev_ind; intros st Hop; cbn zeta;
    [repeat split|].
  rewrite fold_left_app. cbn [fold_left].
  unfold lastWrite. rewrite rev_app_distr. cbn [rev app List.find].
  set (st' := fold_left (forEachEntry origin timeOrigin entryScriptSrc) timeline st).
  assert (Hop' : tx_op (sc_transaction st') <> "navigation").
  { destruct (dispatch_frame origin timeOrigin entryScriptSrc timeline st) as [Heq _].
    unfold st'. rewrite Heq. exact Hop. }
  destruct (forEachEntry_paint origin timeOrigin entryScriptSrc st' entry
              (not_navigation_not_skipped timeOrigin _ entry Hop')) as (H1 & H2 & H3 & H4).
  destruct (IH st Hop) as (I1 & I2 & I3 & I4). fold st' in I1, I2, I3, I4.
  unfold lastWrite in I1, I2, I3, I4.
  rewrite H1, H2, H3, H4, I1, I2, I3, I4.
  destruct (isNamed "first-paint" entry), (isNamed "first-contentful-paint" entry);
    repeat split.
Qed.

(** X11: for a transaction whose operation kind is not "navigation", after a
    call that passes the gatekeeper the measurement "fp" is the raw start
    time (in milliseconds) of the last scanned mark, paint or measure entry
    named "first-paint", and "mark.fp" is its absolute start in seconds; when
    the slice has no such entry both keep their old value.  The same holds
    for "fcp", "mark.fcp" and the name "first-contentful-paint". *)
Theorem paint_last_write_wins env window timeline origin this transaction :
  gatekeeper env = Some (window, timeline, origin) ->
  tx_op transaction <> "navigation" ->
  let slice := drop (_performanceCursor this) timeline in
  let m := _measurements this in
  let m' := _measurements (fst (addPerformanceEntries env this transaction)) in
  m' !! "fp" = lastWrite (isNamed "first-paint") e_startTime slice (m !! "fp")
  /\ m' !! "mark.fp"
     = lastWrite (isNamed "first-paint") (startOf (msToSec origin)) slice (m !! "mark.fp")
  /\ m' !! "fcp"
     = lastWrite (isNamed "first-contentful-paint") e_startTime slice (m !! "fcp")
  /\ m' !! "mark.fcp"
     = lastWrite (isNamed "first-contentful-paint") (startOf (msToSec origin)) slice
         (m !! "mark.fcp").
Proof.
  intros Hgate Hop slice m m'. subst m'. unfold addPerformanceEntries. rewrite Hgate.
  cbn zeta.
  destruct (dispatch_paint (location_origin window) (msToSec origin)
              (findEntryScript window) slice
              {| sc_transaction := transaction; sc_this := this;
                 entryScriptStartTimestamp := None;
                 tracingInitMarkStartTime := None |} Hop) as (H1 & H2 & H3 & H4).
  cbn [sc_this] in H1, H2, H3, H4.
  fold (scan window timeline (msToSec origin) this transaction) in H1, H2, H3, H4.
  fold m in H1, H2, H3, H4.
  destruct (String.eqb _ "pageload"); cbn [fst _measurements];
    [|repeat split; assumption].
  rewrite !_trackNavigator_other by discriminate. cbn [_measurements].
  repeat split; assumption.
Qed.

Lemma paint_last_write_wins_witness :
  let result :=
    addPerformanceEntries
      (page [paintEntry "first-paint" 234; paintEntry "first-contentful-paint" 250;
             paintEntry "first-paint" 400])
      afterLCP (emptyTransaction "pageload" 1000) in
  _measurements (fst result) !! "fp" = Some 400%float
  /\ _measurements (fst result) !! "mark.fp" = Some 1000.4%float
  /\ _measurements (fst result) !! "fcp" = Some 250%float.
Proof.
  intros result.
  destruct (paint_last_write_wins
              (page [paintEntry "first-paint" 234; paintEntry "first-contentful-paint" 250;
                     paintEntry "first-paint" 400])
              _ _ _ afterLCP (emptyTransaction "pageload" 1000) eq_refl)
    as (H1 & H2 & H3 & _); [discriminate|].
  fold result in H1, H2, H3. rewrite H1, H2, H3. repeat split.
Defined.

(** ** The navigator snapshot *)

(** What the snapshot does to the measurements and to the browser
    context, taken apart. *)
Definition snapshotMeasurements (navigator : option Navigator)
    (m : gmap string float) : gmap string float :=
  match navigator ≫= connection with
  | Some connection =>
      let m := match rtt connection with
               | Some v => <["connection.rtt" := v]> m
               | None => m
               end in
      match downlink connection with
      | Some v => <["connection.downlink" := v]> m
      | None => m
      end
  | None => m
  end.

Definition snapshotContext (navigator : option Navigator)
    (ctx : BrowserContext) : BrowserContext :=
  {| effectiveConnectionType :=
       match (navigator ≫= connection) ≫= effectiveType with
       | Some t => if JS.truthyStr t then Some t else effectiveConnectionType ctx
       | None => effectiveConnectionType ctx
       end;
     deviceMemory :=
       match navigator ≫= nav_deviceMemory with
       | Some v => Some v
       | None => deviceMemory ctx
       end;
     hardwareConcurrency :=
       match navigator ≫= nav_hardwareConcurrency with
       | Some v => Some v
       | None => hardwareConcurrency ctx
       end |}.

Lemma _trackNavigator_parts navigator this :
  _trackNavigator navigator this
  = {| _measurements := snapshotMeasurements navigator (_measurements this);
       _browserContext := snapshotContext navigator (_browserContext this);
       _performanceCursor := _performanceCursor this |}.
Proof.
  destruct this as [m [ect dm hc] cursor].
  unfold _trackNavigator, snapshotMeasurements, snapshotContext.
  destruct (navigator ≫= nav_deviceMemory), (navigator ≫= nav_hardwareConcurrency),
    (navigator ≫= connection) as [[[type|] [r|] [d|]]|];
    cbn [mbind option_bind effectiveType rtt downlink];
    try destruct (JS.truthyStr type); reflexivity.
Qed.

Lemma snapshotMeasurements_idempotent navigator m :
  snapshotMeasurements navigator (snapshotMeasurements navigator m)
  = snapshotMeasurements navigator m.
Proof.
  unfold snapshotMeasurements.
  destruct (navigator ≫= connection) as [[type [r|] [d|]]|];
    cbn [rtt downlink]; try exact eq_refl;
    apply map_eq; intros key; rewrite !lookup_insert;
    repeat case_decide; congruence.
Qed.

Lemma snapshotContext_idempotent navigator ctx :
  snapshotContext navigator (snapshotContext navigator ctx)
  = snapshotContext navigator ctx.
Proof.
  unfold snapshotContext. cbn [effectiveConnectionType deviceMemory hardwareConcurrency].
  destruct (navigator ≫= nav_deviceMemory), (navigator ≫= nav_hardwareConcurrency),
    ((navigator ≫= connection) ≫= effectiveType) as [type|];
    try destruct (JS.truthyStr type); reflexivity.
Qed.

(** X12: taking the navigator snapshot twice in a row, from the same
    navigator, gives what taking it once gives: measurements, browser
    context and cursor. *)
Theorem trackNavigator_idempotent navigator this :
  _trackNavigator navigator (_trackNavigator navigator this)
  = _trackNavigator navigator this.
Proof.
  rewrite (_trackNavigator_parts navigator this).
  rewrite _trackNavigator_parts.
  cbn [_measurements _browserContext _performanceCursor].
  rewrite snapshotMeasurements_idempotent, snapshotContext_idempotent.
  reflexivity.
Qed.

(** X13: a navigator without network information (or no navigator at all)
    writes no measurement and leaves the connection type of the browser
    context as it was; device memory and processor count are copied when
    they are numbers and kept otherwise. *)
Theorem snapshot_without_connection navigator this :
  navigator ≫= connection = None ->
  let this' := _trackNavigator navigator this in
  _measurements this' = _measurements this
  /\ effectiveConnectionType (_browserContext this')
     = effectiveConnectionType (_browserContext this)
  /\ deviceMemory (_browserContext this')
     = match navigator ≫= nav_deviceMemory with
       | Some v => Some v
       | None => deviceMemory (_browserContext this)
       end
  /\ hardwareConcurrency (_browserContext this')
     = match navigator ≫= nav_hardwareConcurrency with
       | Some v => Some v
       | None => hardwareConcurrency (_browserContext this)
       end.
Proof.
  intros Hconn. unfold _trackNavigator. rewrite Hconn.
  destruct (navigator ≫= nav_deviceMemory), (navigator ≫= nav_hardwareConcurrency);
    repeat split.
Qed.

Lemma snapshot_without_connection_witness :
  let navigator :=
    Some {| connection := None;
            nav_deviceMemory := Some 8%float;
            nav_hardwareConcurrency := None |} in
  _measurements (_trackNavigator navigator afterLCP) = _measurements afterLCP
  /\ _browserContext (_trackNavigator navigator afterLCP)
     = {| effectiveConnectionType := None;
          deviceMemory := Some 8%float;
          hardwareConcurrency := None |}.
Proof.
  intros navigator.
  destruct (snapshot_without_connection navigator afterLCP eq_refl) as (Hm & _).
  split; [exact Hm|reflexivity].
Defined.

(** ** Web vitals, again *)

(** X14: the callback takes the last entry off the list the metric holds:
    after two firings with the same metric object whose entries end in [a]
    and [b], the first has recorded the start of [b], the second the start of
    [a], and the metric is left with the entries before them. *)
Theorem vital_consumes_entries key perf metric this earlier a b :
  entries metric = earlier ++ [a; b] ->
  let first := trackVital key perf metric this in
  let second := trackVital key perf (snd first) (fst first) in
  _measurements (fst first) !! ("mark." ++ key)%string
  = Some (msToSec (timeOrigin perf) + msToSec (e_startTime b))%float
  /\ entries (snd first) = earlier ++ [a]
  /\ _measurements (fst second) !! ("mark." ++ key)%string
     = Some (msToSec (timeOrigin perf) + msToSec (e_startTime a))%float
  /\ entries (snd second) = earlier
  /\ value (snd second) = value metric.
Proof.
  intros Hentries. cbn zeta.
  assert (H1 : trackVital key perf metric this
               = (setMeasurement (setMeasurement this key (value metric))
                    ("mark." ++ key)%string
                    (msToSec (timeOrigin perf) + msToSec (e_startTime b))%float,
                  {| value := value metric; entries := earlier ++ [a] |})).
  { unfold trackVital. rewrite Hentries.
    change (earlier ++ [a; b]) with (earlier ++ [a] ++ [b]).
    rewrite app_assoc, pop_snoc. reflexivity. }
  rewrite H1. cbn [fst snd].
  unfold trackVital at 1 2 3. cbn [entries value]. rewrite pop_snoc. cbn [fst snd entries value setMeasurement _measurements].
  rewrite !lookup_insert_eq. repeat split.
Qed.

Lemma vital_consumes_entries_witness :
  let metric :=
    {| value := 2500; entries := [paintEntry "a" 1200; paintEntry "b" 2500] |} in
  let first := _trackLCP somePerformance metric initial in
  let second := _trackLCP somePerformance (snd first) (fst first) in
  _measurements (fst second) !! "mark.lcp" = Some 1001.2%float
  /\ entries (snd second) = [].
Proof.
  intros metric first second.
  destruct (vital_consumes_entries "lcp" somePerformance metric initial []
              (paintEntry "a" 1200) (paintEntry "b" 2500) eq_refl)
    as (_ & _ & Hmark & Hrest & _).
  split; [etransitivity; [exact Hmark|reflexivity] | exact Hrest].
Defined.

(** X15: the two web-vital callbacks do not interfere: whichever fires
    first, the instrumentation ends up the same, and each leaves the
    measurements of the other in place. *)
Theorem vitals_commute perf1 metric1 perf2 metric2 this :
  fst (_trackFID perf2 metric2 (fst (_trackLCP perf1 metric1 this)))
  = fst (_trackLCP perf1 metric1 (fst (_trackFID perf2 metric2 this)))
  /\ _measurements (fst (_trackFID perf2 metric2 this)) !! "lcp"
     = _measurements this !! "lcp"
  /\ _measurements (fst (_trackFID perf2 metric2 this)) !! "mark.lcp"
     = _measurements this !! "mark.lcp"
  /\ _measurements (fst (_trackLCP perf1 metric1 this)) !! "fid"
     = _measurements this !! "fid"
  /\ _measurements (fst (_trackLCP perf1 metric1 this)) !! "mark.fid"
     = _measurements this !! "mark.fid".
Proof.
  unfold _trackLCP, _trackFID, trackVital.
  destruct (JS.pop (entries metric1)) as [[entry1|] rest1],
    (JS.pop (entries metric2)) as [[entry2|] rest2];
    unfold setMeasurement;
    cbn [fst snd value entries _measurements _browserContext _performanceCursor];
    cbv [String.append];
    (split; [|rewrite ?lookup_insert_ne by discriminate; repeat split]);
    try exact eq_refl.
  f_equal. apply map_eq. intros key.
  rewrite !lookup_insert. repeat case_decide; subst; try reflexivity; discriminate.
Qed.

(** ** Resource names *)

Lemma append_cons c (s t : string) :
  (String c s ++ t)%string = String c (s ++ t)%string.
Proof. reflexivity. Qed.

Lemma append_empty_r (s : string) : (s ++ "")%string = s.
Proof.
  induction s as [|c s IH]; [reflexivity|]. rewrite append_cons, IH. reflexivity.
Qed.

Lemma prefix_append (s t : string) : String.prefix s (s ++ t)%string = true.
Proof.
  induction s as [|c s IH]; [destruct t; reflexivity|].
  rewrite append_cons. cbn [String.prefix].
  destruct (Ascii.ascii_dec c c); [exact IH|contradiction].
Qed.

Lemma index_cons (s : string) c (t : string) :
  String.index 0 s (String c t)
  = if String.prefix s (String c t) then Some 0
    else match String.index 0 s t with
         | Some n => Some (S n)
         | None => None
         end.
Proof. reflexivity. Qed.

Lemma index_append_l (s t : string) : String.index 0 s (s ++ t)%string = Some 0.
Proof.
  destruct s as [|c s]; [destruct t; reflexivity|].
  rewrite append_cons, index_cons, <- append_cons, prefix_append. reflexivity.
Qed.

Lemma index_append_r (s t : string) : String.index 0 t (s ++ t)%string <> None.
Proof.
  induction s as [|c s IH].
  - pose proof (index_append_l t "") as H. rewrite append_empty_r in H.
    change (String.index 0 t t <> None). rewrite H. discriminate.
  - rewrite append_cons, index_cons.
    destruct (String.prefix t _); [discriminate|].
    destruct (String.index 0 t (s ++ t)%string); [discriminate|contradiction].
Qed.

Lemma substring_all (s : string) : String.substring 0 (String.length s) s = s.
Proof.
  induction s as [|c s IH]; [reflexivity|].
  cbn [String.length String.substring]. rewrite IH. reflexivity.
Qed.

Lemma length_append (s t : string) :
  String.length (s ++ t)%string = String.length s + String.length t.
Proof.
  induction s as [|c s IH]; [reflexivity|].
  rewrite append_cons. cbn [String.length]. rewrite IH. reflexivity.
Qed.

Lemma substring_append_r (s t : string) :
  String.substring (String.length s) (String.length t) (s ++ t)%string = t.
Proof.
  induction s as [|c s IH]; [apply substring_all|].
  rewrite append_cons. cbn [String.length String.substring]. exact IH.
Qed.

Lemma removeFirst_origin (origin path : string) :
  JS.removeFirst (origin ++ path)%string origin = path.
Proof.
  unfold JS.removeFirst. rewrite index_append_l.
  replace (String.substring 0 0 (origin ++ path)%string) with EmptyString
    by (destruct (origin ++ path)%string; reflexivity).
  rewrite length_append.
  replace (String.length origin + String.length path - (0 + String.length origin))
    with (String.length path) by lia.
  change (0 + String.length origin) with (String.length origin).
  change (String.substring (String.length origin) (String.length path)
            (origin ++ path)%string = path).
  apply substring_append_r.
Qed.

(** X16: a dispatched resource that is not deduplicated and is served from
    the page's own origin is named by its path: the origin is stripped from
    the span description, whatever the entry script of the document is (and
    whether it has one).  When that resource is the document's entry script,
    dispatching it (with no entry-script end remembered yet) remembers its
    absolute end as the start of the "evaluation" span. *)
Theorem same_origin_resource origin path timeOrigin entryScriptSrc st entry :
  e_entryType entry = "resource" ->
  e_name entry = (origin ++ path)%string ->
  deduplicated entry = false ->
  skipped timeOrigin (sc_transaction st) entry = false ->
  (exists span,
      tx_spans (sc_transaction (forEachEntry origin timeOrigin entryScriptSrc st entry))
      = tx_spans (sc_transaction st) ++ [span]
      /\ description span = path)
  /\ (entryScriptSrc = Some (origin ++ path)%string ->
      entryScriptStartTimestamp st = None ->
      entryScriptStartTimestamp (forEachEntry origin timeOrigin entryScriptSrc st entry)
      = Some (endOf timeOrigin entry)).
Proof.
  intros Htype Hname Hdedup Hskip. split.
  - exists (resourceSpan origin timeOrigin entry).
    rewrite forEachEntry_spans, Hskip. unfold entrySpans, isMeasure.
    rewrite Htype, Hdedup. cbn [String.eqb Ascii.eqb Bool.eqb orb].
    split; [reflexivity|]. cbn [resourceSpan description].
    rewrite Hname. apply removeFirst_origin.
  - intros -> Hnone.
    assert (Hinc : JS.includes (origin ++ path)%string path = true).
    { unfold JS.includes.
      destruct (String.index 0 path (origin ++ path)%string) eqn:Hindex; [reflexivity|].
      exfalso. exact (index_append_r origin path Hindex). }
    rewrite forEachEntry_entryScript, Hnone, Hskip, Hdedup.
    unfold isEntryScript. rewrite Htype, Hname, removeFirst_origin.
    change (default "" (Some (origin ++ path)%string)) with (origin ++ path)%string.
    rewrite Hinc. reflexivity.
Qed.

Lemma same_origin_resource_witness :
  let st :=
    {| sc_transaction := emptyTransaction "pageload" 1000;
       sc_this := initial;
       entryScriptStartTimestamp := None;
       tracingInitMarkStartTime := None |} in
  let entry := resourceEntry "https://example.com/app.js" "script" 50 30 in
  entryScriptStartTimestamp
    (forEachEntry "https://example.com" 1000 (Some "https://example.com/app.js") st entry)
  = Some (endOf 1000 entry)
  /\ map description
       (tx_spans (sc_transaction (forEachEntry "https://example.com" 1000 None st entry)))
     = ["/app.js"].
Proof.
  intros st entry. split.
  - destruct (same_origin_resource "https://example.com" "/app.js" 1000
                (Some "https://example.com/app.js") st entry
                eq_refl eq_refl eq_refl eq_refl) as [_ H].
    apply H; reflexivity.
  - destruct (same_origin_resource "https://example.com" "/app.js" 1000 None st entry
                eq_refl eq_refl eq_refl eq_refl) as [(span & Hspans & Hdesc) _].
    rewrite Hspans, <- Hdesc. reflexivity.
Defined.

(** ** What a pageload transaction receives *)

(** X17: on a platform that passes the gatekeeper, a "pageload" transaction
    receives every measurement the instrumentation held before the call
    under a name the call itself does not write; so what the web-vital
    callbacks recorded before the call ("lcp", "mark.lcp", "fid",
    "mark.fid") is on the transaction afterwards. *)
Theorem vitals_reach_pageload env this transaction :
  is_Some (gatekeeper env) ->
  tx_op transaction = "pageload" ->
  let result := snd (addPerformanceEntries env this transaction) in
  (forall key, ~ In key scanKeys ->
               tx_measurements result !! key = _measurements this !! key)
  /\ tx_measurements result !! "lcp" = _measurements this !! "lcp"
  /\ tx_measurements result !! "mark.lcp" = _measurements this !! "mark.lcp"
  /\ tx_measurements result !! "fid" = _measurements this !! "fid"
  /\ tx_measurements result !! "mark.fid" = _measurements this !! "mark.fid".
Proof.
  intros [[[window timeline] origin] Hgate] Hop. cbn zeta.
  assert (Hsame : forall key, ~ In key scanKeys ->
                    tx_measurements (snd (addPerformanceEntries env this transaction)) !! key
                    = _measurements this !! key).
  { intros key Hkey. unfold addPerformanceEntries. rewrite Hgate. cbn zeta.
    destruct (scanned_frame window timeline (msToSec origin) this transaction) as (Hop' & _).
    rewrite Hop', Hop. cbn [String.eqb Ascii.eqb Bool.eqb snd setMeasurements tx_measurements].
    rewrite _trackNavigator_other by (intros ->; apply Hkey; cbn; tauto).
    cbn [_measurements].
    destruct (dispatch_this (location_origin window) (msToSec origin)
                (findEntryScript window) (drop (_performanceCursor this) timeline)
                {| sc_transaction := transaction; sc_this := this;
                   entryScriptStartTimestamp := None;
                   tracingInitMarkStartTime := None |}) as ([Hm _] & _).
    apply Hm, Hkey. }
  split; [exact Hsame|].
  repeat split; apply Hsame; cbn; intuition discriminate.
Qed.

Lemma vitals_reach_pageload_witness :
  tx_measurements
    (snd (addPerformanceEntries (page prefetchedTimeline) afterLCP
            (emptyTransaction "pageload" 1000))) !! "lcp"
  = Some 2500%float.
Proof.
  destruct (vitals_reach_pageload (page prefetchedTimeline) afterLCP
              (emptyTransaction "pageload" 1000)) as (_ & H & _);
    [eexists; reflexivity | reflexivity |].
  rewrite H. reflexivity.
Defined.
